(** * BarangayCare: the complaint store and its client operations

    A shallow embedding of
      - [src/utils/supabase/setup-database.sql]: the [complaints] table, its
        row-level-security policies and the [updated_at] trigger;
      - the [ComplaintProvider] context ([fetchComplaints], [addComplaint],
        [updateComplaint]);
      - the [ComplaintForm] submit handler ([handleSubmit]);
      - [AppContent], the [Header], the [AdminPanel] handlers, the dashboard
        counters, the settings page and the localStorage migration.

    Asynchronous calls are modelled by explicit state passing: every operation
    takes the environment it observes (auth session, localStorage, clocks),
    the database and the React state, and returns the new database and React
    state together with its result.  Timestamps are milliseconds since the
    epoch; UUIDs and all text columns are strings. *)

From Stdlib Require Import ZArith NArith List String Ascii Bool Lia.
From Stdlib Require Import Permutation Sorted DecimalString DecimalN.
Import ListNotations.

Local Open Scope string_scope.
Local Open Scope list_scope.

Definition UUID := string.
Definition Timestamp := Z.

(** ** JavaScript string helpers used by [addComplaint] *)
Module JS.

(** Truthiness of an optional string: [undefined], [null] and the empty
    string are falsy. *)
Definition truthy (s : option string) : bool :=
  match s with
  | Some EmptyString => false
  | Some _ => true
  | None => false
  end.

(** [a || b] on optional strings. *)
Definition or_else (a b : option string) : option string :=
  if truthy a then a else b.

(** [Number.prototype.toString()] on a non-negative integer (exact for the
    safe integers, below 2^53). *)
Definition toString (n : N) : string :=
  NilEmpty.string_of_uint (N.to_uint n).

Fixpoint zeros (k : nat) : string :=
  match k with
  | O => EmptyString
  | S k' => String "0" (zeros k')
  end.

(** [s.padStart(width, "0")]: pads on the left up to [width], never
    truncates. *)
Definition padStart (width : nat) (s : string) : string :=
  zeros (width - String.length s) ++ s.

Definition is_digit (c : ascii) : bool :=
  let n := nat_of_ascii c in (48 <=? n)%nat && (n <=? 57)%nat.

(** The greedy run of decimal digits at the head of [s]: the capture of
    [\d+] (which must be non-empty to match). *)
Fixpoint take_digits (s : string) : string :=
  match s with
  | String c r => if is_digit c then String c (take_digits r)
                  else EmptyString
  | EmptyString => EmptyString
  end.

Fixpoint strip_prefix (p s : string) : option string :=
  match p, s with
  | EmptyString, _ => Some s
  | String a p', String b s' =>
      if Ascii.eqb a b then strip_prefix p' s' else None
  | String _ _, EmptyString => None
  end.

(** [/Anonymous(\d+)/] anchored at the head of [s]. *)
Definition match_here (s : string) : option string :=
  match strip_prefix "Anonymous" s with
  | Some rest =>
      match take_digits rest with
      | EmptyString => None
      | ds => Some ds
      end
  | None => None
  end.

(** [s.match(/Anonymous(\d+)/)]: the first capture group of the leftmost
    match, [None] when the pattern does not occur. *)
Fixpoint regex_match (s : string) : option string :=
  match match_here s with
  | Some ds => Some ds
  | None =>
      match s with
      | EmptyString => None
      | String _ r => regex_match r
      end
  end.

(** [parseInt] on a string of decimal digits (exact for the safe
    integers). *)
Definition parseInt (ds : string) : N :=
  match NilEmpty.uint_of_string ds with
  | Some d => N.of_uint d
  | None => 0%N
  end.

(** SQL [LIKE 'Anonymous%']. *)
Definition like_Anonymous (s : string) : bool := String.prefix "Anonymous" s.

End JS.

(** ** The [complaints] table (setup-database.sql) *)

Module User.
(** The authenticated user carried by a session: [user.id], [user.email],
    [user.user_metadata.name] and [user.user_metadata.role]. *)
Record t := mk {
  id : UUID;
  email : option string;
  name : option string;
  role : option string
}.
End User.

Module Row.
Record t := mk {
  id : UUID;
  title : string;
  description : string;
  category : string;
  location : string;
  photo : option string;
  contact_info : string;
  status : string;
  priority : string;
  date_submitted : Timestamp;
  admin_notes : option string;
  respondent : option string;
  user_id : option UUID;
  user_name : option string;
  created_at : Timestamp;
  updated_at : Timestamp
}.
End Row.

(** One entry of the table's change feed, as delivered to the
    [postgres_changes] subscription: one event per inserted or updated row. *)
Inductive Change :=
| INSERT (id : UUID)
| UPDATE (id : UUID).

Module Db.
Record t := mk {
  complaints : list Row.t;
  changes : list Change
}.
Definition empty : t := mk [] [].
End Db.

(** What one call observes outside the database.

    [returning_needs_select] records how the database treats the row that
    a write hands back.  PostgreSQL applies the SELECT policies to the row
    an [INSERT ... RETURNING] returns, and [.insert(...).select()] is such
    a statement; so for the table of
    setup-database.sql, which lives in PostgreSQL, the flag is on.  With the
    flag off the INSERT policies alone decide: that is a store which hands
    the new row back unchecked, kept here to show which results depend on
    the rule.  A result that needs one setting says so. *)
Record Env := mkEnv {
  session : option User.t;       (* supabase.auth.getSession() *)
  guestMode : option string;     (* localStorage.getItem("guestMode") *)
  clientNow : Timestamp;         (* new Date() in the browser *)
  serverNow : Timestamp;         (* NOW() in the database *)
  gen_random_uuid : UUID;        (* the id the database draws for a new row *)
  online : bool;                 (* the Supabase endpoint answers *)
  returning_needs_select : bool
}.

(** Row-level security: the policies of setup-database.sql. *)
Module Policy.

(** SQL equality on nullable uuids: a comparison with NULL is not true. *)
Definition sql_eq (a b : option UUID) : bool :=
  match a, b with
  | Some x, Some y => String.eqb x y
  | _, _ => false
  end.

(** [auth.uid()] *)
Definition auth_uid (s : option User.t) : option UUID :=
  option_map User.id s.

(** [(auth.jwt() -> 'user_metadata' ->> 'role') = 'admin'] *)
Definition jwt_is_admin (s : option User.t) : bool :=
  match s with
  | Some u =>
      match User.role u with
      | Some r => String.eqb r "admin"
      | None => false
      end
  | None => false
  end.

(** "Users can view their own complaints" *)
Definition users_can_view (s : option User.t) (r : Row.t) : bool :=
  sql_eq (auth_uid s) (Row.user_id r).

(** "Admins can view all complaints" *)
Definition admins_can_view (s : option User.t) (r : Row.t) : bool :=
  jwt_is_admin s.

(** "Users can insert their own complaints" *)
Definition users_can_insert (s : option User.t) (r : Row.t) : bool :=
  sql_eq (auth_uid s) (Row.user_id r).

(** "Guests can insert complaints" *)
Definition guests_can_insert (s : option User.t) (r : Row.t) : bool :=
  match Row.user_id r with
  | None => true
  | Some _ => false
  end.

(** "Users can update their own complaints": USING and WITH CHECK. *)
Definition users_can_update (s : option User.t) (r : Row.t) : bool :=
  sql_eq (auth_uid s) (Row.user_id r).

(** "Admins can update all complaints": USING, which also serves as the
    check on the new row since the policy has no WITH CHECK. *)
Definition admins_can_update (s : option User.t) (r : Row.t) : bool :=
  jwt_is_admin s.

(** Permissive policies for one command are combined with OR. *)
Definition can_select (s : option User.t) (r : Row.t) : bool :=
  users_can_view s r || admins_can_view s r.

Definition can_insert (s : option User.t) (r : Row.t) : bool :=
  users_can_insert s r || guests_can_insert s r.

Definition can_update (s : option User.t) (r : Row.t) : bool :=
  users_can_update s r || admins_can_update s r.

End Policy.

(** ** The Supabase client calls issued by the complaint context *)
Module Supabase.

(** The [error] member of a response. *)
Inductive PgError :=
| FetchFailed       (* the request did not reach the endpoint *)
| PGRST116          (* [.single()]: the result is not exactly one row *)
| RlsViolation      (* 42501: row violates row-level security policy *)
| UniqueViolation.  (* 23505: duplicate primary key *)

Definition message (e : PgError) : string :=
  match e with
  | FetchFailed => "TypeError: Failed to fetch"
  | PGRST116 => "JSON object requested, multiple (or no) rows returned"
  | RlsViolation =>
      "new row violates row-level security policy for table complaints"
  | UniqueViolation =>
      "duplicate key value violates unique constraint complaints_pkey"
  end.

(** Insertion sort, largest key first: [ORDER BY key DESC].  SQL leaves the
    order of rows with equal keys open; here they keep their table order. *)
Fixpoint insert_desc (key : Row.t -> Z) (x : Row.t) (l : list Row.t)
  : list Row.t :=
  match l with
  | [] => [x]
  | y :: l' =>
      if (key y <=? key x)%Z then x :: y :: l'
      else y :: insert_desc key x l'
  end.

Definition order_desc (key : Row.t -> Z) (l : list Row.t) : list Row.t :=
  fold_right (insert_desc key) [] l.

(** [.is("user_id", null)] *)
Definition is_null {A} (o : option A) : bool :=
  match o with None => true | Some _ => false end.

(** [.like("user_name", "Anonymous%")]: a NULL name does not match. *)
Definition like_Anonymous (o : option string) : bool :=
  match o with Some s => JS.like_Anonymous s | None => false end.

(** [from("complaints").select("*").order("date_submitted", desc)], with
    [.eq("user_id", uid)] when [eq_user_id] is given.  The SELECT policies
    filter the rows the caller may see. *)
Definition select_complaints (env : Env) (db : Db.t)
           (eq_user_id : option UUID) : PgError + list Row.t :=
  if negb (online env) then inl FetchFailed
  else
    let keep r :=
      Policy.can_select (session env) r &&
      match eq_user_id with
      | Some uid => Policy.sql_eq (Some uid) (Row.user_id r)
      | None => true
      end in
    inr (order_desc Row.date_submitted (filter keep (Db.complaints db))).

(** [select("user_name").is("user_id", null).like("user_name",
    "Anonymous%").order("created_at", desc).limit(1).single()] *)
Definition select_last_guest (env : Env) (db : Db.t)
  : PgError + option string :=
  if negb (online env) then inl FetchFailed
  else
    let keep r :=
      Policy.can_select (session env) r &&
      is_null (Row.user_id r) && like_Anonymous (Row.user_name r) in
    match order_desc Row.created_at (filter keep (Db.complaints db)) with
    | r :: _ => inr (Row.user_name r)
    | [] => inl PGRST116
    end.

(** The object [addComplaint] passes to [insert]; the columns it leaves
    out ([id], [created_at], [updated_at]) take their defaults. *)
Module DbComplaint.
Record t := mk {
  title : string;
  description : string;
  category : string;
  location : string;
  photo : option string;
  contact_info : string;
  status : string;
  priority : string;
  admin_notes : option string;
  respondent : option string;
  user_id : option UUID;
  user_name : option string;
  date_submitted : Timestamp
}.
End DbComplaint.

Definition new_row (env : Env) (c : DbComplaint.t) : Row.t :=
  Row.mk (gen_random_uuid env)
         (DbComplaint.title c) (DbComplaint.description c)
         (DbComplaint.category c) (DbComplaint.location c)
         (DbComplaint.photo c) (DbComplaint.contact_info c)
         (DbComplaint.status c) (DbComplaint.priority c)
         (DbComplaint.date_submitted c)
         (DbComplaint.admin_notes c) (DbComplaint.respondent c)
         (DbComplaint.user_id c) (DbComplaint.user_name c)
         (serverNow env) (serverNow env).

Definition has_id (id : UUID) (r : Row.t) : bool := String.eqb (Row.id r) id.

(** [from("complaints").insert([c]).select().single()].  The new row must
    pass an INSERT policy; where the platform applies the SELECT policies
    to a returned row it must pass one of those too, and the statement
    fails as a whole otherwise.  A committed insert publishes one change. *)
Definition insert (env : Env) (db : Db.t) (c : DbComplaint.t)
  : PgError + (Row.t * Db.t) :=
  let r := new_row env c in
  if negb (online env) then inl FetchFailed
  else if negb (Policy.can_insert (session env) r) then inl RlsViolation
  else if returning_needs_select env
          && negb (Policy.can_select (session env) r)
       then inl RlsViolation
  else if existsb (has_id (Row.id r)) (Db.complaints db)
       then inl UniqueViolation
  else inr (r, Db.mk (Db.complaints db ++ [r])
                     (Db.changes db ++ [INSERT (Row.id r)])).

(** The object [updateComplaint] passes to [update]: a column is present
    when the corresponding member of [updates] is not [undefined]. *)
Module DbUpdates.
Record t := mk {
  title : option string;
  description : option string;
  category : option string;
  location : option string;
  photo : option string;
  contact_info : option string;
  status : option string;
  priority : option string;
  admin_notes : option string;
  respondent : option string
}.

Definition is_empty (p : t) : bool :=
  is_null (title p) && is_null (description p) && is_null (category p)
  && is_null (location p) && is_null (photo p)
  && is_null (contact_info p) && is_null (status p)
  && is_null (priority p) && is_null (admin_notes p)
  && is_null (respondent p).
End DbUpdates.

Definition set {A} (new : option A) (old : A) : A :=
  match new with Some v => v | None => old end.

Definition set_nullable {A} (new : option A) (old : option A) : option A :=
  match new with Some v => Some v | None => old end.

(** [UPDATE complaints SET ... ] on one row. *)
Definition apply_updates (p : DbUpdates.t) (r : Row.t) : Row.t :=
  Row.mk (Row.id r)
         (set (DbUpdates.title p) (Row.title r))
         (set (DbUpdates.description p) (Row.description r))
         (set (DbUpdates.category p) (Row.category r))
         (set (DbUpdates.location p) (Row.location r))
         (set_nullable (DbUpdates.photo p) (Row.photo r))
         (set (DbUpdates.contact_info p) (Row.contact_info r))
         (set (DbUpdates.status p) (Row.status r))
         (set (DbUpdates.priority p) (Row.priority r))
         (Row.date_submitted r)
         (set_nullable (DbUpdates.admin_notes p) (Row.admin_notes r))
         (set_nullable (DbUpdates.respondent p) (Row.respondent r))
         (Row.user_id r) (Row.user_name r)
         (Row.created_at r) (Row.updated_at r).

(** Trigger [update_complaints_updated_at], BEFORE UPDATE FOR EACH ROW:
    [NEW.updated_at = NOW()]. *)
Definition update_updated_at_column (now : Timestamp) (NEW : Row.t)
  : Row.t :=
  Row.mk (Row.id NEW) (Row.title NEW) (Row.description NEW)
         (Row.category NEW) (Row.location NEW) (Row.photo NEW)
         (Row.contact_info NEW) (Row.status NEW) (Row.priority NEW)
         (Row.date_submitted NEW) (Row.admin_notes NEW)
         (Row.respondent NEW) (Row.user_id NEW) (Row.user_name NEW)
         (Row.created_at NEW) now.

(** [from("complaints").update(p).eq("id", id).select().single()].
    The UPDATE policies select the rows the caller may touch (the SELECT
    policies have the same conditions), the trigger stamps each new row,
    and the new row is checked against the UPDATE policies again.  An
    empty [p] touches no row.  [.single()] turns any result other than
    exactly one row into an error, and the statement is then rolled back.
    A committed update publishes one change per row. *)
Definition update (env : Env) (db : Db.t) (p : DbUpdates.t) (id : UUID)
  : PgError + (Row.t * Db.t) :=
  if negb (online env) then inl FetchFailed
  else if DbUpdates.is_empty p then inl PGRST116
  else
    let hit r := has_id id r && Policy.can_update (session env) r in
    let new r := update_updated_at_column (serverNow env) (apply_updates p r) in
    let returned := map new (filter hit (Db.complaints db)) in
    if negb (forallb (Policy.can_update (session env)) returned)
    then inl RlsViolation
    else
      match returned with
      | [r'] =>
          inr (r', Db.mk (map (fun r => if hit r then new r else r)
                              (Db.complaints db))
                         (Db.changes db ++ [UPDATE id]))
      | _ => inl PGRST116
      end.

End Supabase.

(** ** The complaint context ([ComplaintProvider]) *)

Module Complaint.
(** [interface Complaint] *)
Record t := mk {
  id : string;
  title : string;
  description : string;
  category : string;
  location : string;
  photo : option string;
  contactInfo : string;
  status : string;
  dateSubmitted : Timestamp;
  priority : string;
  adminNotes : option string;
  respondent : option string;
  userId : option string;
  userName : option string
}.
End Complaint.

Module ComplaintData.
(** [Omit<Complaint, "id" | "dateSubmitted">], the argument of
    [addComplaint]. *)
Record t := mk {
  title : string;
  description : string;
  category : string;
  location : string;
  photo : option string;
  contactInfo : string;
  status : string;
  priority : string;
  adminNotes : option string;
  respondent : option string;
  userId : option string;
  userName : option string
}.
End ComplaintData.

Module Updates.
(** [Partial<Complaint>], the argument of [updateComplaint]; [None] is an
    absent member.  A member that is present with the value [undefined] is
    not represented: the callers in this repository pass object literals
    whose members are strings ([{ status }], [{ priority }],
    [{ adminNotes }]). *)
Record t := mk {
  id : option string;
  title : option string;
  description : option string;
  category : option string;
  location : option string;
  photo : option string;
  contactInfo : option string;
  status : option string;
  dateSubmitted : option Timestamp;
  priority : option string;
  adminNotes : option string;
  respondent : option string;
  userId : option string;
  userName : option string
}.

Definition none : t :=
  mk None None None None None None None None None None None None None None.
End Updates.

Inductive Toast :=
| toast_error (msg : string)
| toast_success (msg : string).

Module State.
(** The React state of the provider, and the toasts it has raised. *)
Record t := mk {
  complaints : list Complaint.t;
  loading : bool;
  toasts : list Toast
}.
Definition initial : t := mk [] true [].
End State.

Module ComplaintContext.

(** [user?.user_metadata?.role === "admin"] *)
Definition isAdmin (user : User.t) : bool :=
  match User.role user with
  | Some r => String.eqb r "admin"
  | None => false
  end.

(** [localStorage.getItem("guestMode") === "true"] *)
Definition isGuestMode (env : Env) : bool :=
  match guestMode env with
  | Some v => String.eqb v "true"
  | None => false
  end.

(** Row to [Complaint]: snake_case to camelCase. *)
Definition transform (complaint : Row.t) : Complaint.t :=
  Complaint.mk (Row.id complaint) (Row.title complaint)
               (Row.description complaint) (Row.category complaint)
               (Row.location complaint) (Row.photo complaint)
               (Row.contact_info complaint) (Row.status complaint)
               (Row.date_submitted complaint) (Row.priority complaint)
               (Row.admin_notes complaint) (Row.respondent complaint)
               (Row.user_id complaint) (Row.user_name complaint).

Definition fetchComplaints (env : Env) (db : Db.t) (st : State.t)
  : State.t :=
  match session env with
  | None => State.mk [] false (State.toasts st)
  | Some user =>
      let query := if isAdmin user then None else Some (User.id user) in
      match Supabase.select_complaints env db query with
      | inl _ =>
          State.mk (State.complaints st) false
                   (State.toasts st
                    ++ [toast_error "Failed to load complaints"])
      | inr data => State.mk (map transform data) false (State.toasts st)
      end
  end.

(** "Get the next anonymous number": only [data] of the response is used,
    so a failed or empty query counts as no previous guest.  The number is
    a JavaScript double; [N] agrees with it while the number stays below
    2^53, and the results that depend on its value carry that bound. *)
Definition nextNumber (env : Env) (db : Db.t) : N :=
  let lastGuest :=
    match Supabase.select_last_guest env db with
    | inr user_name => user_name
    | inl _ => None
    end in
  if JS.truthy lastGuest then
    match lastGuest with
    | Some user_name =>
        match JS.regex_match user_name with
        | Some digits => (JS.parseInt digits + 1)%N
        | None => 1%N
        end
    | None => 1%N
    end
  else 1%N.

Definition anonymousName (n : N) : string :=
  "Anonymous" ++ JS.padStart 3 (JS.toString n).

(** [addComplaint] up to the point where it issues the insert: the guard,
    the resolution of [userName] and [userId], and [dbComplaint]. *)
Definition prepare (env : Env) (db : Db.t) (complaintData : ComplaintData.t)
  : string + Supabase.DbComplaint.t :=
  let user := session env in
  let dbComplaint userId userName :=
    Supabase.DbComplaint.mk
      (ComplaintData.title complaintData)
      (ComplaintData.description complaintData)
      (ComplaintData.category complaintData)
      (ComplaintData.location complaintData)
      (ComplaintData.photo complaintData)
      (ComplaintData.contactInfo complaintData)
      (ComplaintData.status complaintData)
      (ComplaintData.priority complaintData)
      (ComplaintData.adminNotes complaintData)
      (ComplaintData.respondent complaintData)
      userId (Some userName) (clientNow env) in
  if Supabase.is_null user && negb (isGuestMode env)
  then inl "You must be logged in to submit a complaint"
  else if isGuestMode env
  then inr (dbComplaint None (anonymousName (nextNumber env db)))
  else
    match user with
    | Some u =>
        let userName :=
          match JS.or_else (JS.or_else (User.name u) (User.email u))
                           (Some "Unknown User") with
          | Some s => s
          | None => "Unknown User"
          end in
        inr (dbComplaint (Some (User.id u)) userName)
    | None => inl "Failed to submit complaint"
    end.

(** The insert and what follows it. *)
Definition commit (env : Env) (db : Db.t) (st : State.t)
           (dbComplaint : Supabase.DbComplaint.t)
  : option string * Db.t * State.t :=
  match Supabase.insert env db dbComplaint with
  | inl error =>
      (Some "Failed to submit complaint", db,
       State.mk (State.complaints st) (State.loading st)
                (State.toasts st
                 ++ [toast_error ("Failed to submit complaint: "
                                  ++ Supabase.message error)]))
  | inr (data, db') =>
      (None, db',
       State.mk (transform data :: State.complaints st) (State.loading st)
                (State.toasts st
                 ++ [toast_success "Complaint submitted successfully"]))
  end.

(** [addComplaint]: the returned option is the [error] member of the
    result, [None] for [{}]. *)
Definition addComplaint (env : Env) (db : Db.t) (st : State.t)
           (complaintData : ComplaintData.t)
  : option string * Db.t * State.t :=
  match prepare env db complaintData with
  | inl error => (Some error, db, st)
  | inr dbComplaint => commit env db st dbComplaint
  end.

(** "Transform updates from camelCase to snake_case" *)
Definition dbUpdates (updates : Updates.t) : Supabase.DbUpdates.t :=
  Supabase.DbUpdates.mk
    (Updates.title updates) (Updates.description updates)
    (Updates.category updates) (Updates.location updates)
    (Updates.photo updates) (Updates.contactInfo updates)
    (Updates.status updates) (Updates.priority updates)
    (Updates.adminNotes updates) (Updates.respondent updates).

(** [{ ...complaint, ...updates, dateSubmitted }] *)
Definition merge (complaint : Complaint.t) (updates : Updates.t)
           (dateSubmitted : Timestamp) : Complaint.t :=
  Complaint.mk
    (Supabase.set (Updates.id updates) (Complaint.id complaint))
    (Supabase.set (Updates.title updates) (Complaint.title complaint))
    (Supabase.set (Updates.description updates)
                  (Complaint.description complaint))
    (Supabase.set (Updates.category updates) (Complaint.category complaint))
    (Supabase.set (Updates.location updates) (Complaint.location complaint))
    (Supabase.set_nullable (Updates.photo updates)
                           (Complaint.photo complaint))
    (Supabase.set (Updates.contactInfo updates)
                  (Complaint.contactInfo complaint))
    (Supabase.set (Updates.status updates) (Complaint.status complaint))
    dateSubmitted
    (Supabase.set (Updates.priority updates) (Complaint.priority complaint))
    (Supabase.set_nullable (Updates.adminNotes updates)
                           (Complaint.adminNotes complaint))
    (Supabase.set_nullable (Updates.respondent updates)
                           (Complaint.respondent complaint))
    (Supabase.set_nullable (Updates.userId updates)
                           (Complaint.userId complaint))
    (Supabase.set_nullable (Updates.userName updates)
                           (Complaint.userName complaint)).

Definition updateComplaint (env : Env) (db : Db.t) (st : State.t)
           (id : string) (updates : Updates.t)
  : option string * Db.t * State.t :=
  match session env with
  | None => (Some "You must be logged in to update a complaint", db, st)
  | Some _ =>
      match Supabase.update env db (dbUpdates updates) id with
      | inl _ =>
          (Some "Failed to update complaint", db,
           State.mk (State.complaints st) (State.loading st)
                    (State.toasts st
                     ++ [toast_error "Failed to update complaint"]))
      | inr (data, db') =>
          let updatedComplaints :=
            map (fun complaint =>
                   if String.eqb (Complaint.id complaint) id
                   then merge complaint updates (Row.date_submitted data)
                   else complaint)
                (State.complaints st) in
          (None, db',
           State.mk updatedComplaints (State.loading st)
                    (State.toasts st
                     ++ [toast_success "Complaint updated successfully"]))
      end
  end.

End ComplaintContext.

(** ** The complaint form *)
Module ComplaintForm.

(** The form's state hooks that [handleSubmit] reads. *)
Record t := mk {
  title : string;
  description : string;
  category : string;
  location : string;
  photo : option string;
  contactInfo : string;
  respondent : string
}.

Definition blank : t :=
  mk EmptyString EmptyString EmptyString EmptyString None EmptyString
     EmptyString.

(** "Check if category requires respondent field" *)
Definition requiresRespondent (category : string) : bool :=
  String.eqb category "civil-disputes"
  || String.eqb category "minor-criminal".

(** [handleSubmit]: the complaint handed to [onSubmit], and the form after
    its reset.  The pinned coordinates are part of the object but no
    consumer reads them. *)
Definition handleSubmit (form : t) : ComplaintData.t * t :=
  let complaint :=
    ComplaintData.mk
      (title form) (description form) (category form) (location form)
      (JS.or_else (photo form) None)
      (contactInfo form)
      "pending"
      (if String.eqb (category form) "emergency" then "high" else "medium")
      None
      (if requiresRespondent (category form)
       then Some (respondent form) else None)
      None None in
  (complaint, blank).

End ComplaintForm.

(** ** Several submissions in flight

    [addComplaint] touches the database twice, at its two awaits: the read
    of the last guest name and the insert.  Other callers' requests can be
    served between the two, so a run of several submissions is a schedule
    that advances one of them by one database call at a time. *)
Module Interleaving.

Inductive Task :=
| Pending (env : Env) (complaintData : ComplaintData.t)
| Prepared (env : Env) (dbComplaint : Supabase.DbComplaint.t)
| Finished (result : option string).

Definition step (db : Db.t) (t : Task) : Db.t * Task :=
  match t with
  | Pending env complaintData =>
      match ComplaintContext.prepare env db complaintData with
      | inl error => (db, Finished (Some error))
      | inr dbComplaint => (db, Prepared env dbComplaint)
      end
  | Prepared env dbComplaint =>
      let '(result, db', _) :=
        ComplaintContext.commit env db State.initial dbComplaint in
      (db', Finished result)
  | Finished result => (db, Finished result)
  end.

Fixpoint step_nth (i : nat) (db : Db.t) (tasks : list Task)
  : Db.t * list Task :=
  match tasks, i with
  | [], _ => (db, [])
  | t :: rest, O => let '(db', t') := step db t in (db', t' :: rest)
  | t :: rest, S i' =>
      let '(db', rest') := step_nth i' db rest in (db', t :: rest')
  end.

Fixpoint run (schedule : list nat) (db : Db.t) (tasks : list Task)
  : Db.t * list Task :=
  match schedule with
  | [] => (db, tasks)
  | i :: schedule' =>
      let '(db', tasks') := step_nth i db tasks in
      run schedule' db' tasks'
  end.

(** The guest names carried by the stored rows, in table order. *)
Definition stored_names (db : Db.t) : list (option string) :=
  map Row.user_name (Db.complaints db).

End Interleaving.

(** ** Histories of context operations *)
Module History.

Inductive Op :=
| Add (env : Env) (complaintData : ComplaintData.t)
| Update (env : Env) (id : string) (updates : Updates.t).

Definition env_of (op : Op) : Env :=
  match op with
  | Add env _ => env
  | Update env _ _ => env
  end.

Definition exec (op : Op) (db : Db.t) : Db.t :=
  match op with
  | Add env complaintData =>
      snd (fst (ComplaintContext.addComplaint env db State.initial
                                              complaintData))
  | Update env id updates =>
      snd (fst (ComplaintContext.updateComplaint env db State.initial
                                                 id updates))
  end.

Definition run (ops : list Op) (db : Db.t) : Db.t :=
  fold_left (fun d op => exec op d) ops db.

(** The browser's clock matters to a submission only: [addComplaint] sends
    [new Date()] as [date_submitted], [updateComplaint] sends no time. *)
Definition browser_not_ahead (op : Op) : Prop :=
  match op with
  | Add env _ => (clientNow env <= serverNow env)%Z
  | Update _ _ _ => True
  end.

(** The database clock never runs backwards along the history, starting
    from [last], and no submitting browser's clock is ahead of it. *)
Fixpoint clocks_ok (last : Timestamp) (ops : list Op) : Prop :=
  match ops with
  | [] => True
  | op :: ops' =>
      (last <= serverNow (env_of op))%Z
      /\ browser_not_ahead op
      /\ clocks_ok (serverNow (env_of op)) ops'
  end.

(** Every row was submitted no later than it was last updated, and last
    updated no later than [last]. *)
Definition stamped (last : Timestamp) (db : Db.t) : Prop :=
  Forall (fun r => (Row.date_submitted r <= Row.updated_at r)%Z
                   /\ (Row.updated_at r <= last)%Z)
         (Db.complaints db).

(** What creation fixes for a row. *)
Definition birth (r : Row.t) : UUID * Timestamp * Timestamp :=
  (Row.id r, Row.date_submitted r, Row.created_at r).

End History.

(** ** Statistics *)

Module ComplaintStats.
(** The row returned by the SQL function [get_complaint_stats()]. *)
Record t := mk {
  total_complaints : nat;
  pending_complaints : nat;
  in_progress_complaints : nat;
  resolved_complaints : nat;
  rejected_complaints : nat
}.
End ComplaintStats.

Module SetupDatabase.

(** [COUNT( * ) FILTER (WHERE status = s)] *)
Definition count_status (s : string) (rows : list Row.t) : nat :=
  List.length (filter (fun r => String.eqb (Row.status r) s) rows).

(** [get_complaint_stats()].  The function is declared without SECURITY
    DEFINER, so its query runs as the caller and sees the rows the SELECT
    policies admit for the caller. *)
Definition get_complaint_stats (s : option User.t) (db : Db.t)
  : ComplaintStats.t :=
  let complaints := filter (Policy.can_select s) (Db.complaints db) in
  ComplaintStats.mk (List.length complaints)
                    (count_status "pending" complaints)
                    (count_status "in-progress" complaints)
                    (count_status "resolved" complaints)
                    (count_status "rejected" complaints).

End SetupDatabase.

Module Stats.
(** The [stats] object of the admin panel and of the dashboard. *)
Record t := mk {
  total : nat;
  pending : nat;
  inProgress : nat;
  resolved : nat;
  rejected : nat
}.
End Stats.

(** ** The pages that use the complaint context *)

Module App.

(** The state hooks of [AppContent] that its handlers write. *)
Record t := mk {
  currentView : string
}.

Definition initial : t := mk "dashboard".

(** [handleSubmitComplaint] *)
Definition handleSubmitComplaint (env : Env) (db : Db.t) (st : State.t)
           (app : t) (newComplaint : ComplaintData.t)
  : Db.t * State.t * t :=
  let '(error, db', st') :=
    ComplaintContext.addComplaint env db st newComplaint in
  match error with
  | Some e =>
      if JS.truthy (Some e)
      then (db',
            State.mk (State.complaints st') (State.loading st')
                     (State.toasts st' ++ [toast_error e]),
            app)
      else (db',
            State.mk (State.complaints st') (State.loading st')
                     (State.toasts st'
                      ++ [toast_success
                            "Request submitted successfully! We will review it shortly."]),
            mk "dashboard")
  | None =>
      (db',
       State.mk (State.complaints st') (State.loading st')
                (State.toasts st'
                 ++ [toast_success
                       "Request submitted successfully! We will review it shortly."]),
       mk "dashboard")
  end.

(** [handleUpdateComplaint] *)
Definition handleUpdateComplaint (env : Env) (db : Db.t) (st : State.t)
           (id : string) (updates : Updates.t) : Db.t * State.t :=
  let '(error, db', st') :=
    ComplaintContext.updateComplaint env db st id updates in
  match error with
  | Some e =>
      if JS.truthy (Some e)
      then (db',
            State.mk (State.complaints st') (State.loading st')
                     (State.toasts st' ++ [toast_error e]))
      else (db',
            State.mk (State.complaints st') (State.loading st')
                     (State.toasts st'
                      ++ [toast_success "Request updated successfully!"]))
  | None =>
      (db',
       State.mk (State.complaints st') (State.loading st')
                (State.toasts st'
                 ++ [toast_success "Request updated successfully!"]))
  end.

(** [complaints.filter((c) => c.status === "pending").length] *)
Definition pendingCount (complaints : list Complaint.t) : nat :=
  List.length (filter (fun c => String.eqb (Complaint.status c) "pending")
                 complaints).

(** [<ComplaintForm onSubmit={handleSubmitComplaint} />]: what a submit
    event of the form does.  [handleSubmit] hands the complaint to
    [onSubmit] and resets the form without waiting for the outcome. *)
Definition submitForm (env : Env) (db : Db.t) (st : State.t) (app : t)
           (form : ComplaintForm.t)
  : Db.t * State.t * t * ComplaintForm.t :=
  let '(complaint, form') := ComplaintForm.handleSubmit form in
  let '(db', st', app') := handleSubmitComplaint env db st app complaint in
  (db', st', app', form').

(** The pages of the signed-in layout. *)
Inductive Page :=
| UnifiedDashboard
| ComplaintForm
| AdminPanel
| DataAnalytics
| UserManagement
| ProfileManagement
| ResidentSettings.

(** The page that [<main>] shows for [currentView]; none for any other
    value. *)
Definition page (currentView : string) : option Page :=
  if String.eqb currentView "dashboard" then Some UnifiedDashboard
  else if String.eqb currentView "submit" then Some ComplaintForm
  else if String.eqb currentView "admin" then Some AdminPanel
  else if String.eqb currentView "analytics" then Some DataAnalytics
  else if String.eqb currentView "users" then Some UserManagement
  else if String.eqb currentView "profile" then Some ProfileManagement
  else if String.eqb currentView "settings" then Some ResidentSettings
  else None.

End App.

Module Header.

(** The keys of [navigationItems]. *)
Definition navigationItems (isAdmin : bool) : list string :=
  ["dashboard"]
  ++ (if negb isAdmin then ["submit"] else [])
  ++ (if isAdmin then ["admin"; "analytics"; "users"] else []).

(** The views for which the header has a button calling [handleNavClick]:
    the logo, the navigation items (desktop and mobile), the mobile user
    entries and the profile sheet. *)
Definition targets (isAdmin : bool) : list string :=
  ["dashboard"]
  ++ navigationItems isAdmin
  ++ navigationItems isAdmin
  ++ ["dashboard"; "profile"; "settings"]
  ++ ["dashboard"; "profile"; "settings"]
  ++ (if negb isAdmin then ["submit"] else []).

(** [handleNavClick(view)] as wired in [App]: [onViewChange] is
    [setCurrentView]. *)
Definition handleNavClick (view : string) (app : App.t) : App.t :=
  App.mk view.

End Header.

Module AdminPanel.

(** The state hooks of the panel that its update handlers read and
    write. *)
Record t := mk {
  selectedComplaint : option Complaint.t;
  adminNotes : string;
  selectedPriority : string
}.

Definition initial : t := mk None EmptyString "medium".

Definition stats (complaints : list Complaint.t) : Stats.t :=
  let count s :=
    List.length (filter (fun c => String.eqb (Complaint.status c) s) complaints) in
  Stats.mk (List.length complaints) (count "pending") (count "in-progress")
           (count "resolved") (count "rejected").

(** Opening a complaint's details. *)
Definition select (complaint : Complaint.t) (panel : t) : t :=
  mk (Some complaint)
     (match JS.or_else (Complaint.adminNotes complaint) (Some EmptyString) with
      | Some s => s
      | None => EmptyString
      end)
     (Complaint.priority complaint).

Definition with_status (c : Complaint.t) (status : string) : Complaint.t :=
  Complaint.mk (Complaint.id c) (Complaint.title c) (Complaint.description c)
               (Complaint.category c) (Complaint.location c)
               (Complaint.photo c) (Complaint.contactInfo c) status
               (Complaint.dateSubmitted c) (Complaint.priority c)
               (Complaint.adminNotes c) (Complaint.respondent c)
               (Complaint.userId c) (Complaint.userName c).

Definition with_priority (c : Complaint.t) (priority : string)
  : Complaint.t :=
  Complaint.mk (Complaint.id c) (Complaint.title c) (Complaint.description c)
               (Complaint.category c) (Complaint.location c)
               (Complaint.photo c) (Complaint.contactInfo c)
               (Complaint.status c) (Complaint.dateSubmitted c) priority
               (Complaint.adminNotes c) (Complaint.respondent c)
               (Complaint.userId c) (Complaint.userName c).

Definition with_adminNotes (c : Complaint.t) (notes : string)
  : Complaint.t :=
  Complaint.mk (Complaint.id c) (Complaint.title c) (Complaint.description c)
               (Complaint.category c) (Complaint.location c)
               (Complaint.photo c) (Complaint.contactInfo c)
               (Complaint.status c) (Complaint.dateSubmitted c)
               (Complaint.priority c) (Some notes) (Complaint.respondent c)
               (Complaint.userId c) (Complaint.userName c).

(** [{ status: newStatus }], [{ priority: newPriority }] and
    [{ adminNotes }]. *)
Definition status_only (s : string) : Updates.t :=
  Updates.mk None None None None None None None (Some s) None None None
             None None None.

Definition priority_only (p : string) : Updates.t :=
  Updates.mk None None None None None None None None None (Some p) None
             None None None.

Definition notes_only (n : string) : Updates.t :=
  Updates.mk None None None None None None None None None None (Some n)
             None None None.

(** [handleStatusUpdate]: the update is handed to [onUpdateComplaint] and
    the open complaint is changed at once, without looking at the
    outcome. *)
Definition handleStatusUpdate (env : Env) (db : Db.t) (st : State.t)
           (panel : t) (complaintId : string) (newStatus : string)
  : Db.t * State.t * t :=
  let '(db', st') :=
    App.handleUpdateComplaint env db st complaintId (status_only newStatus) in
  (db', st',
   match selectedComplaint panel with
   | Some c =>
       if String.eqb (Complaint.id c) complaintId
       then mk (Some (with_status c newStatus)) (adminNotes panel)
               (selectedPriority panel)
       else panel
   | None => panel
   end).

Definition handlePriorityUpdate (env : Env) (db : Db.t) (st : State.t)
           (panel : t) (complaintId : string) (newPriority : string)
  : Db.t * State.t * t :=
  let '(db', st') :=
    App.handleUpdateComplaint env db st complaintId
                              (priority_only newPriority) in
  (db', st',
   match selectedComplaint panel with
   | Some c =>
       if String.eqb (Complaint.id c) complaintId
       then mk (Some (with_priority c newPriority)) (adminNotes panel)
               (selectedPriority panel)
       else panel
   | None => panel
   end).

Definition handleSaveNotes (env : Env) (db : Db.t) (st : State.t)
           (panel : t) : Db.t * State.t * t :=
  match selectedComplaint panel with
  | Some c =>
      let '(db', st') :=
        App.handleUpdateComplaint env db st (Complaint.id c)
                                  (notes_only (adminNotes panel)) in
      (db', st',
       mk (Some (with_adminNotes c (adminNotes panel))) (adminNotes panel)
          (selectedPriority panel))
  | None => (db, st, panel)
  end.

End AdminPanel.

Module UnifiedDashboard.

Definition stats (baseComplaints : list Complaint.t) : Stats.t :=
  let count s :=
    List.length (filter (fun c => String.eqb (Complaint.status c) s)
                   baseComplaints) in
  Stats.mk (List.length baseComplaints) (count "pending") (count "in-progress")
           (count "resolved") (count "rejected").

(** [[...new Set(xs)]]: the distinct values in order of first
    occurrence. *)
Fixpoint distinct (seen : list string) (xs : list string) : list string :=
  match xs with
  | [] => []
  | x :: rest =>
      if existsb (String.eqb x) seen then distinct seen rest
      else x :: distinct (x :: seen) rest
  end.

(** [[...new Set(complaints.map(c => c.category))]] *)
Definition categories (complaints : list Complaint.t) : list string :=
  distinct [] (map Complaint.category complaints).

End UnifiedDashboard.

(** ** The client's list against the table *)
Module Projection.

(** The local list holds exactly what the caller's SELECT policies show of
    the table, in some order: what a refetch would load. *)
Definition in_sync (env : Env) (db : Db.t) (st : State.t) : Prop :=
  Permutation (State.complaints st)
              (map ComplaintContext.transform
                   (filter (Policy.can_select (session env))
                           (Db.complaints db))).

(** The subscription callback: any change on the table refetches. *)
Definition on_postgres_changes (env : Env) (db : Db.t) (st : State.t)
  : State.t :=
  ComplaintContext.fetchComplaints env db st.

(** What the rows of a table keep for good. *)
Definition ownership (r : Row.t) : UUID * option UUID * option string :=
  (Row.id r, Row.user_id r, Row.user_name r).

(** A later state [r'] of the row [r]: same identity and owner, and no
    optional column that was set has been cleared. *)
Definition evolves (r r' : Row.t) : Prop :=
  ownership r' = ownership r
  /\ (Row.photo r <> None -> Row.photo r' <> None)
  /\ (Row.admin_notes r <> None -> Row.admin_notes r' <> None)
  /\ (Row.respondent r <> None -> Row.respondent r' <> None).

(** Every row names its submitter, and the name of a row without owner
    begins with "Anonymous": the filter [LIKE 'Anonymous%'] of the numbering
    query finds it. *)
Definition named (db : Db.t) : Prop :=
  Forall (fun r =>
            exists name,
              Row.user_name r = Some name
              /\ name <> EmptyString
              /\ (Row.user_id r = None -> JS.like_Anonymous name = true))
         (Db.complaints db).

End Projection.

(** ** Moving between the pages *)
Module Navigation.

(** What changes [currentView]: a click on a header button, or the end of a
    submission.  [isAdmin] is React state of the auth context; it changes
    when a caller signs in or out, while [currentView] lives on in
    [AppContent].  A click therefore carries the [isAdmin] the header was
    rendered with when it happened. *)
Inductive Event :=
| Click (isAdmin : bool) (view : string)
| Submitted (newComplaint : ComplaintData.t) (env : Env) (db : Db.t)
            (st : State.t).

(** A click counts only on a button the header renders. *)
Definition step (app : App.t) (ev : Event) : App.t :=
  match ev with
  | Click isAdmin view =>
      if existsb (String.eqb view) (Header.targets isAdmin)
      then Header.handleNavClick view app
      else app
  | Submitted newComplaint env db st =>
      snd (App.handleSubmitComplaint env db st app newComplaint)
  end.

Definition run (events : list Event) (app : App.t) : App.t :=
  fold_left step events app.

(** The header was rendered with [isAdmin] at the click. *)
Definition rendered_for (isAdmin : bool) (ev : Event) : Prop :=
  match ev with
  | Click b _ => b = isAdmin
  | Submitted _ _ _ _ => True
  end.

End Navigation.

(** ** The settings page ([ResidentSettings]) *)
Module ResidentSettings.

Inductive Value :=
| VBool (b : bool)
| VString (s : string).

(** A settings object: its members in order. *)
Definition Obj := list (string * Value).

(** [{ ...prev, [key]: value }] *)
Fixpoint assign (key : string) (value : Value) (prev : Obj) : Obj :=
  match prev with
  | [] => [(key, value)]
  | (k, v) :: rest =>
      if String.eqb k key then (k, value) :: rest
      else (k, v) :: assign key value rest
  end.

Fixpoint get (key : string) (obj : Obj) : option Value :=
  match obj with
  | [] => None
  | (k, v) :: rest => if String.eqb k key then Some v else get key rest
  end.

Record t := mk {
  notifications : Obj;
  preferences : Obj;
  privacy : Obj;
  unsavedChanges : bool;
  toasts : list Toast
}.

Definition default_notifications : Obj :=
  [("email", VBool true); ("push", VBool true); ("sms", VBool false);
   ("statusUpdates", VBool true); ("weeklyDigest", VBool true);
   ("communityNews", VBool false)].

Definition default_preferences : Obj :=
  [("language", VString "en"); ("timezone", VString "Asia/Manila");
   ("defaultLocation", VString "Barangay Hall");
   ("autoLocation", VBool true)].

Definition default_privacy : Obj :=
  [("showProfile", VBool true); ("shareLocation", VBool true);
   ("allowContact", VBool true); ("dataCollection", VBool false)].

Definition initial : t :=
  mk default_notifications default_preferences default_privacy false [].

Definition handleNotificationChange (key : string) (value : bool) (s : t)
  : t :=
  mk (assign key (VBool value) (notifications s)) (preferences s)
     (privacy s) true (toasts s).

Definition handlePreferenceChange (key : string) (value : Value) (s : t)
  : t :=
  mk (notifications s) (assign key value (preferences s)) (privacy s) true
     (toasts s).

Definition handlePrivacyChange (key : string) (value : bool) (s : t) : t :=
  mk (notifications s) (preferences s) (assign key (VBool value) (privacy s))
     true (toasts s).

(** "In a real app, this would save to backend" *)
Definition handleSaveSettings (s : t) : t :=
  mk (notifications s) (preferences s) (privacy s) false
     (toasts s ++ [toast_success "Settings saved successfully!"]).

Definition resetSettings (s : t) : t :=
  mk default_notifications default_preferences default_privacy true
     (toasts s ++ [toast_success "Settings reset to defaults"]).

Inductive Event :=
| NotificationChange (key : string) (value : bool)
| PreferenceChange (key : string) (value : Value)
| PrivacyChange (key : string) (value : bool)
| SaveSettings
| ResetSettings.

Definition step (s : t) (ev : Event) : t :=
  match ev with
  | NotificationChange key value => handleNotificationChange key value s
  | PreferenceChange key value => handlePreferenceChange key value s
  | PrivacyChange key value => handlePrivacyChange key value s
  | SaveSettings => handleSaveSettings s
  | ResetSettings => resetSettings s
  end.

Definition run (events : list Event) (s : t) : t :=
  fold_left step events s.

Definition is_save (ev : Event) : bool :=
  match ev with SaveSettings => true | _ => false end.

End ResidentSettings.

(** ** The one-time migration from localStorage *)
Module Migration.

Module Stored.
(** A complaint as found in the parsed [barangay-complaints] array: its
    members are text or absent. *)
Record t := mk {
  id : option string;
  title : option string;
  description : option string;
  category : option string;
  location : option string;
  photo : option string;
  contactInfo : option string;
  status : option string;
  priority : option string;
  adminNotes : option string;
  respondent : option string;
  userId : option string;
  userName : option string;
  dateSubmitted : option string
}.
End Stored.

(** The value [JSON.parse] returns, as far as the migration looks at it:
    an array of objects (a [null] element is [None]) or anything else. *)
Inductive Json :=
| NotAnArray
| Array (items : list (option Stored.t)).

(** [complaint.dateSubmitted || new Date().toISOString()] *)
Inductive DateValue :=
| Text (s : string)
| Now (t : Timestamp).

Module DbRow.
(** An element of [dbComplaints]. *)
Record t := mk {
  id : option string;
  title : option string;
  description : option string;
  category : option string;
  location : option string;
  photo : option string;
  contact_info : option string;
  status : option string;
  priority : string;
  admin_notes : option string;
  respondent : option string;
  user_id : string;
  user_name : string;
  date_submitted : DateValue
}.
End DbRow.

Record Result := mkResult {
  success : bool;
  migratedCount : option nat;
  error : option string
}.

(** [a || b] where [b] is text. *)
Definition or_text (a : option string) (b : string) : string :=
  match JS.or_else a (Some b) with
  | Some s => s
  | None => b
  end.

(** [needsMigration()]: [!!localStorage.getItem("barangay-complaints")] *)
Definition needsMigration (storedComplaints : option string) : bool :=
  JS.truthy storedComplaints.

(** The body of the [complaints.map] callback. *)
Definition dbComplaint (user : User.t) (now : Timestamp)
           (complaint : Stored.t) : DbRow.t :=
  DbRow.mk
    (JS.or_else (Stored.id complaint) None)
    (Stored.title complaint) (Stored.description complaint)
    (Stored.category complaint) (Stored.location complaint)
    (Stored.photo complaint) (Stored.contactInfo complaint)
    (Stored.status complaint)
    (or_text (Stored.priority complaint) "medium")
    (Stored.adminNotes complaint) (Stored.respondent complaint)
    (or_text (Stored.userId complaint) (User.id user))
    (or_text (JS.or_else (JS.or_else (Stored.userName complaint)
                                     (User.name user))
                         (User.email user))
             "Unknown User")
    (match JS.or_else (Stored.dateSubmitted complaint) None with
     | Some s => Text s
     | None => Now now
     end).

(** [complaints.map(...)]; reading a member of a [null] element throws. *)
Fixpoint dbComplaints (user : User.t) (now : Timestamp)
         (complaints : list (option Stored.t)) : option (list DbRow.t) :=
  match complaints with
  | [] => Some []
  | None :: _ => None
  | Some complaint :: rest =>
      match dbComplaints user now rest with
      | Some rows => Some (dbComplaint user now complaint :: rows)
      | None => None
      end
  end.

Section Platform.

(** [JSON.parse]: the parsed value, or the text of the exception. *)
Variable JSON_parse : string -> string + Json.
(** The text of the TypeError raised on a [null] element. *)
Variable TypeError : string.
(** [upsert(rows, { onConflict: "id", ignoreDuplicates: false }).select()] *)
Variable upsert :
  Env -> Db.t -> list DbRow.t -> Supabase.PgError + (list Row.t * Db.t).

Definition migrateLocalStorageToSupabase (env : Env)
           (storedComplaints : option string) (db : Db.t)
  : Result * Db.t :=
  match session env with
  | None => (mkResult false None (Some "User not logged in"), db)
  | Some user =>
      match storedComplaints with
      | None => (mkResult true (Some 0%nat) None, db)
      | Some text =>
          if negb (JS.truthy (Some text))
          then (mkResult true (Some 0%nat) None, db)
          else
            match JSON_parse text with
            | inl exception => (mkResult false None (Some exception), db)
            | inr NotAnArray => (mkResult true (Some 0%nat) None, db)
            | inr (Array []) => (mkResult true (Some 0%nat) None, db)
            | inr (Array complaints) =>
                match dbComplaints user (clientNow env) complaints with
                | None => (mkResult false None (Some TypeError), db)
                | Some rows =>
                    match upsert env db rows with
                    | inl e =>
                        (mkResult false None (Some (Supabase.message e)), db)
                    | inr (data, db') =>
                        (mkResult true (Some (List.length data)) None, db')
                    end
                end
            end
      end
  end.

End Platform.

End Migration.

(** ** Sample data *)
Module Sample.

Definition alice : User.t :=
  User.mk "a11ce" (Some "alice@example.com") (Some "Alice") None.
Definition bob : User.t :=
  User.mk "b0b" (Some "bob@example.com") None (Some "resident").
Definition admin : User.t :=
  User.mk "adm1n" (Some "admin@example.com") (Some "Admin")
          (Some "admin").

Definition env_of (s : option User.t) (guest : option string)
           (now : Timestamp) (uuid : UUID) (strict : bool) : Env :=
  mkEnv s guest now now uuid true strict.

Definition alice_env : Env :=
  env_of (Some alice) None 400%Z "u-1" true.

Definition bob_env : Env :=
  env_of (Some bob) None 400%Z "u-2" true.
Definition admin_env : Env :=
  env_of (Some admin) None 500%Z "u-3" true.
Definition admin_env_later : Env :=
  env_of (Some admin) None 600%Z "u-4" true.

(** Visitors with no session who chose to continue as guest. *)
Definition guest_env (now : Timestamp) (uuid : UUID) (strict : bool)
  : Env :=
  env_of None (Some "true") now uuid strict.

(** An admin session with the guest-mode flag left set. *)
Definition admin_guest_env (now : Timestamp) (uuid : UUID) : Env :=
  env_of (Some admin) (Some "true") now uuid true.

Definition visitor1 (strict : bool) : Env := guest_env 10%Z "g-1" strict.
Definition visitor2 (strict : bool) : Env := guest_env 20%Z "g-2" strict.
Definition admin_tab1 : Env := admin_guest_env 10%Z "g-1".
Definition admin_tab2 : Env := admin_guest_env 20%Z "g-2".

(** A browser whose clock runs ahead of the database's. *)
Definition skewed_env : Env :=
  mkEnv (Some alice) None 1000%Z 900%Z "u-9" true true.

Definition pothole : ComplaintData.t :=
  ComplaintData.mk "Pothole" "Deep pothole on Main St" "infrastructure"
                   "Main St" None "0917" "pending" "medium" None None
                   None None.

(** A complaint whose status and priority are not among the listed
    values. *)
Definition odd_labels : ComplaintData.t :=
  ComplaintData.mk "Stray dogs" "Pack of strays near the school" "other"
                   "Purok 3" None "0921" "on hold" "urgent!" None None
                   None None.

(** A dispute complaint that names no respondent. *)
Definition dispute : ComplaintData.t :=
  ComplaintData.mk "Fence" "Neighbour moved the fence" "civil-disputes"
                   "Purok 2" None "0918" "pending" "medium" None None
                   None None.

Definition dispute_form : ComplaintForm.t :=
  ComplaintForm.mk "Fence" "Neighbour moved the fence" "civil-disputes"
                   "Purok 2" None "0918" "Mr. Cruz".

Definition row_alice : Row.t :=
  Row.mk "c-1" "Pothole" "Deep pothole on Main St" "infrastructure"
         "Main St" None "0917" "pending" "medium" 100%Z None None
         (Some "a11ce") (Some "Alice") 100%Z 100%Z.

Definition row_bob : Row.t :=
  Row.mk "c-2" "Noise" "Karaoke past midnight" "noise" "Purok 5" None
         "0919" "pending" "medium" 200%Z None None
         (Some "b0b") (Some "bob@example.com") 200%Z 200%Z.

Definition row_guest : Row.t :=
  Row.mk "c-3" "Flood" "Blocked drainage" "sanitation" "Purok 1" None
         "0920" "pending" "medium" 300%Z None None
         None (Some "Anonymous001") 300%Z 300%Z.

Definition db3 : Db.t :=
  Db.mk [row_alice; row_bob; row_guest]
        [INSERT "c-1"; INSERT "c-2"; INSERT "c-3"].

Definition set_status (s : string) : Updates.t :=
  Updates.mk None None None None None None None (Some s) None None None
             None None None.

Definition set_priority (p : string) : Updates.t :=
  Updates.mk None None None None None None None None None (Some p) None
             None None None.

Definition set_notes (n : string) : Updates.t :=
  Updates.mk None None None None None None None None None None (Some n)
             None None None.

Definition history : list History.Op :=
  [History.Add alice_env pothole;
   History.Update admin_env "u-1" (set_status "resolved")].

End Sample.


(** ** Further sample data *)
Module Fixture.

(** A browser whose session has ended. *)
Definition signed_out_env : Env :=
  Sample.env_of None None 500%Z "u-3" true.

(** A browser that cannot reach the endpoint. *)
Definition offline_env : Env :=
  mkEnv (Some Sample.alice) None 500%Z 500%Z "u-6" false true.

(** A resident who is signed in while the guest-mode flag is set, against
    PostgreSQL. *)
Definition bob_guest_pg : Env :=
  mkEnv (Some Sample.bob) (Some "true") 700%Z 700%Z "u-5" true true.

(** An admin whose browser clock runs far ahead of the database's. *)
Definition admin_fast_clock : Env :=
  mkEnv (Some Sample.admin) None 9999%Z 500%Z "u-7" true true.

(** An admin who cannot reach the endpoint. *)
Definition offline_admin_env : Env :=
  mkEnv (Some Sample.admin) None 500%Z 500%Z "u-8" false true.

Definition history_fast_admin : list History.Op :=
  [History.Add Sample.alice_env Sample.pothole;
   History.Update admin_fast_clock "u-1" (Sample.set_status "resolved")].

(** An admin with the guest flag left set submits, Alice submits, and the
    admin resolves the guest request. *)
Definition history_with_guest : list History.Op :=
  [History.Add Sample.admin_tab1 Sample.pothole;
   History.Add Sample.alice_env Sample.pothole;
   History.Update Sample.admin_env "g-1" (Sample.set_status "resolved")].

(** A resident clicks through the header and submits. *)
Definition resident_clicks : list Navigation.Event :=
  [Navigation.Click false "submit";
   Navigation.Submitted Sample.pothole Sample.alice_env Sample.db3
                        State.initial;
   Navigation.Click false "admin";
   Navigation.Click false "settings"].

(** An admin opens the admin panel and signs out; a resident signs in. *)
Definition admin_then_resident : list Navigation.Event :=
  [Navigation.Click true "admin";
   Navigation.Click false "admin";
   Navigation.Click false "users"].

Definition emergency_form : ComplaintForm.t :=
  ComplaintForm.mk "Fire" "Smoke from the warehouse" "emergency" "Purok 4"
                   None "0922" "nobody".

(** A parser that finds no array and a store that is never reached. *)
Definition no_array (text : string) : string + Migration.Json :=
  inr Migration.NotAnArray.

Definition unreachable (env : Env) (db : Db.t)
           (rows : list Migration.DbRow.t)
  : Supabase.PgError + (list Row.t * Db.t) :=
  inl Supabase.FetchFailed.

End Fixture.

(** * Properties *)

(** ** Lists, sorting and policies *)

Lemma insert_desc_perm (key : Row.t -> Z) (x : Row.t) (l : list Row.t) :
  Permutation (Supabase.insert_desc key x l) (x :: l).
Proof.
  induction l as [|y l IH]; simpl.
  - apply Permutation_refl.
  - destruct (key y <=? key x)%Z.
    + apply Permutation_refl.
    + apply perm_trans with (y :: x :: l).
      * apply perm_skip, IH.
      * apply perm_swap.
Qed.

Lemma order_desc_perm (key : Row.t -> Z) (l : list Row.t) :
  Permutation (Supabase.order_desc key l) l.
Proof.
  induction l as [|x l IH]; simpl.
  - constructor.
  - eapply perm_trans; [apply insert_desc_perm|].
    apply perm_skip, IH.
Qed.

Lemma insert_desc_sorted (key : Row.t -> Z) (x : Row.t) (l : list Row.t) :
  Sorted (fun a b => (key b <= key a)%Z) l ->
  Sorted (fun a b => (key b <= key a)%Z) (Supabase.insert_desc key x l).
Proof.
  induction l as [|y l IH]; simpl; intro H.
  - repeat constructor.
  - destruct (key y <=? key x)%Z eqn:E.
    + constructor; [exact H|]. constructor. now apply Z.leb_le.
    + apply Z.leb_gt in E. inversion H as [|? ? Hs Hh]; subst.
      constructor; [now apply IH|].
      destruct l as [|z l]; simpl.
      * constructor. lia.
      * destruct (key z <=? key x)%Z; constructor; [lia|].
        now inversion Hh.
Qed.

(** [ORDER BY key DESC]: the result lists the rows largest key first. *)
Lemma order_desc_sorted (key : Row.t -> Z) (l : list Row.t) :
  Sorted (fun a b => (key b <= key a)%Z) (Supabase.order_desc key l).
Proof.
  induction l as [|x l IH]; simpl.
  - constructor.
  - now apply insert_desc_sorted.
Qed.

Lemma order_desc_nil_inv (key : Row.t -> Z) (l : list Row.t) :
  Supabase.order_desc key l = [] -> l = [].
Proof.
  intro H. pose proof (order_desc_perm key l) as P. rewrite H in P.
  now apply Permutation_nil in P.
Qed.

Lemma isAdmin_jwt (u : User.t) :
  Policy.jwt_is_admin (Some u) = ComplaintContext.isAdmin u.
Proof. reflexivity. Qed.

Lemma sql_eq_true (a : UUID) (b : option UUID) :
  Policy.sql_eq (Some a) b = true <-> b = Some a.
Proof.
  destruct b as [b|]; simpl.
  - rewrite String.eqb_eq. split; intro H; [now subst | now inversion H].
  - split; discriminate.
Qed.

(** A caller who is not an admin selects, inserts as owner and updates
    exactly the rows whose [user_id] is the caller's id. *)
Lemma can_select_resident (u : User.t) (r : Row.t) :
  ComplaintContext.isAdmin u = false ->
  Policy.can_select (Some u) r = Policy.sql_eq (Some (User.id u)) (Row.user_id r).
Proof.
  intro H. unfold Policy.can_select, Policy.admins_can_view, Policy.users_can_view.
  rewrite isAdmin_jwt, H. simpl. apply orb_false_r.
Qed.

Lemma can_select_admin (u : User.t) (r : Row.t) :
  ComplaintContext.isAdmin u = true -> Policy.can_select (Some u) r = true.
Proof.
  intro H. unfold Policy.can_select, Policy.admins_can_view.
  rewrite isAdmin_jwt, H. apply orb_true_r.
Qed.

Lemma can_select_anonymous (r : Row.t) : Policy.can_select None r = false.
Proof. reflexivity. Qed.

(** ** C3: reads are scoped to the caller *)

(** C3.  [fetchComplaints] replaces the list by a view scoped to the caller.
    Without a session the view is empty, whatever the table holds, and no
    error is raised.  With an admin session the view is the whole table (up
    to the listing order).  With any other session the view is exactly the
    rows whose [user_id] is the caller's id, so every complaint in it is the
    caller's own. *)
Theorem fetchComplaints_scoped (env : Env) (db : Db.t) (st : State.t) :
  let st' := ComplaintContext.fetchComplaints env db st in
  match session env with
  | None =>
      State.complaints st' = [] /\ State.toasts st' = State.toasts st
  | Some user =>
      online env = true ->
      State.toasts st' = State.toasts st /\
      if ComplaintContext.isAdmin user
      then Permutation (State.complaints st')
                       (map ComplaintContext.transform (Db.complaints db))
      else Permutation
             (State.complaints st')
             (map ComplaintContext.transform
                  (filter (fun r => Policy.sql_eq (Some (User.id user))
                                                  (Row.user_id r))
                          (Db.complaints db)))
           /\ Forall (fun c => Complaint.userId c = Some (User.id user))
                     (State.complaints st')
  end.
Proof.
  unfold ComplaintContext.fetchComplaints.
  destruct (session env) as [user|] eqn:Hs; simpl.
  - intro Hon. unfold Supabase.select_complaints. rewrite Hon, Hs. simpl.
    split; [reflexivity|].
    destruct (ComplaintContext.isAdmin user) eqn:Ha.
    + apply Permutation_map.
      eapply perm_trans; [apply order_desc_perm|].
      rewrite (filter_ext _ (fun _ => true)).
      * clear. induction (Db.complaints db); simpl; auto.
      * intro r. now rewrite can_select_admin.
    + assert (P : Permutation
                (Supabase.order_desc Row.date_submitted
                   (filter (fun r => Policy.can_select (Some user) r
                                     && Policy.sql_eq (Some (User.id user)) (Row.user_id r))
                           (Db.complaints db)))
                (filter (fun r => Policy.sql_eq (Some (User.id user)) (Row.user_id r))
                        (Db.complaints db))).
      { eapply perm_trans; [apply order_desc_perm|].
        erewrite filter_ext; [apply Permutation_refl|].
        intro r. rewrite can_select_resident by exact Ha. apply andb_diag. }
      split.
      * now apply Permutation_map.
      * apply Forall_forall. intros c Hc.
        apply in_map_iff in Hc. destruct Hc as (r & <- & Hr).
        apply (Permutation_in _ P) in Hr. apply filter_In in Hr.
        destruct Hr as [_ Hr]. now apply sql_eq_true in Hr.
  - split; reflexivity.
Qed.

Lemma fetchComplaints_scoped_witness :
  State.toasts (ComplaintContext.fetchComplaints
                  Sample.alice_env
                  Sample.db3 State.initial) = [] /\
  Permutation
    (State.complaints
       (ComplaintContext.fetchComplaints
          Sample.alice_env
          Sample.db3 State.initial))
    (map ComplaintContext.transform
         (filter (fun r => Policy.sql_eq (Some "a11ce") (Row.user_id r))
                 (Db.complaints Sample.db3)))
  /\ Forall (fun c => Complaint.userId c = Some "a11ce")
            (State.complaints
               (ComplaintContext.fetchComplaints
                  Sample.alice_env
                  Sample.db3 State.initial)).
Proof.
  exact (fetchComplaints_scoped
           Sample.alice_env
           Sample.db3 State.initial eq_refl).
Defined.

(** ** Updates *)

Lemma set_idem {A} (o : option A) (x : A) :
  Supabase.set o (Supabase.set o x) = Supabase.set o x.
Proof. now destruct o. Qed.

Lemma set_nullable_idem {A} (o x : option A) :
  Supabase.set_nullable o (Supabase.set_nullable o x) = Supabase.set_nullable o x.
Proof. now destruct o. Qed.

(** Writing the same columns again changes nothing. *)
Lemma apply_updates_idem (p : Supabase.DbUpdates.t) (t : Timestamp) (r : Row.t) :
  Supabase.apply_updates p
    (Supabase.update_updated_at_column t (Supabase.apply_updates p r))
  = Supabase.update_updated_at_column t (Supabase.apply_updates p r).
Proof.
  unfold Supabase.apply_updates, Supabase.update_updated_at_column; simpl.
  now rewrite !set_idem, !set_nullable_idem.
Qed.

Lemma stamp_twice (t1 t2 : Timestamp) (r : Row.t) :
  Supabase.update_updated_at_column t2 (Supabase.update_updated_at_column t1 r)
  = Supabase.update_updated_at_column t2 r.
Proof. reflexivity. Qed.

Lemma has_id_written (p : Supabase.DbUpdates.t) (t : Timestamp) (id : UUID) (r : Row.t) :
  Supabase.has_id id
    (Supabase.update_updated_at_column t (Supabase.apply_updates p r))
  = Supabase.has_id id r.
Proof. reflexivity. Qed.

Lemma can_update_written (s : option User.t) (p : Supabase.DbUpdates.t)
      (t : Timestamp) (r : Row.t) :
  Policy.can_update s
    (Supabase.update_updated_at_column t (Supabase.apply_updates p r))
  = Policy.can_update s r.
Proof. reflexivity. Qed.

Lemma can_update_admin (u : User.t) (r : Row.t) :
  ComplaintContext.isAdmin u = true -> Policy.can_update (Some u) r = true.
Proof.
  intro H. unfold Policy.can_update, Policy.admins_can_update.
  rewrite isAdmin_jwt, H. apply orb_true_r.
Qed.

Lemma filter_none {A} (f : A -> bool) (l : list A) :
  (forall x, In x l -> f x = false) -> filter f l = [].
Proof.
  induction l as [|x l IH]; simpl; intro H; [reflexivity|].
  rewrite (H x (or_introl eq_refl)). apply IH. intros y Hy. apply H. now right.
Qed.

Lemma filter_map_comm {A} (f : A -> bool) (g : A -> A) (l : list A) :
  (forall x, f (g x) = f x) -> filter f (map g l) = map g (filter f l).
Proof.
  intro H. induction l as [|x l IH]; simpl; [reflexivity|].
  rewrite H. destruct (f x); simpl; now rewrite IH.
Qed.

(** The rows a successful [update] leaves behind, and its single change. *)
Lemma update_inr (env : Env) (db : Db.t) (p : Supabase.DbUpdates.t)
      (id : UUID) (r' : Row.t) (db' : Db.t) :
  Supabase.update env db p id = inr (r', db') ->
  let hit r := Supabase.has_id id r && Policy.can_update (session env) r in
  let new r := Supabase.update_updated_at_column (serverNow env)
                 (Supabase.apply_updates p r) in
  online env = true /\ Supabase.DbUpdates.is_empty p = false /\
  (exists r0, filter hit (Db.complaints db) = [r0] /\ r' = new r0) /\
  Db.complaints db' = map (fun r => if hit r then new r else r) (Db.complaints db) /\
  Db.changes db' = Db.changes db ++ [UPDATE id].
Proof.
  intros H hit new. unfold Supabase.update in H. subst hit new.
  destruct (online env); simpl in H; [|discriminate].
  destruct (Supabase.DbUpdates.is_empty p); [discriminate|].
  destruct (forallb _ _); simpl in H; [|discriminate].
  destruct (filter _ (Db.complaints db)) as [|r0 [|r1 l]] eqn:Hf;
    simpl in H; try discriminate.
  inversion H; subst. simpl. repeat split; eauto.
Qed.

Lemma update_single (env : Env) (db : Db.t) (p : Supabase.DbUpdates.t)
      (id : UUID) (r0 : Row.t) :
  online env = true -> Supabase.DbUpdates.is_empty p = false ->
  let hit r := Supabase.has_id id r && Policy.can_update (session env) r in
  let new r := Supabase.update_updated_at_column (serverNow env)
                 (Supabase.apply_updates p r) in
  filter hit (Db.complaints db) = [r0] ->
  Supabase.update env db p id
  = inr (new r0,
         Db.mk (map (fun r => if hit r then new r else r) (Db.complaints db))
               (Db.changes db ++ [UPDATE id])).
Proof.
  intros Hon Hne hit new Hf.
  assert (Hin : In r0 (filter hit (Db.complaints db))) by (rewrite Hf; now left).
  apply filter_In in Hin. destruct Hin as [_ Hh].
  apply andb_true_iff in Hh. destruct Hh as [_ Hc].
  subst hit new. unfold Supabase.update.
  rewrite Hon, Hne. simpl. rewrite Hf. simpl.
  rewrite can_update_written, Hc. reflexivity.
Qed.

Lemma update_no_rows (env : Env) (db : Db.t) (p : Supabase.DbUpdates.t) (id : UUID) :
  online env = true ->
  (forall r, In r (Db.complaints db) ->
             Supabase.has_id id r && Policy.can_update (session env) r = false) ->
  Supabase.update env db p id = inl Supabase.PGRST116.
Proof.
  intros Hon Hno. unfold Supabase.update. rewrite Hon. simpl.
  destruct (Supabase.DbUpdates.is_empty p); [reflexivity|].
  rewrite (filter_none _ _ Hno). reflexivity.
Qed.

Lemma update_inl_or_hit (env : Env) (db : Db.t) (p : Supabase.DbUpdates.t) (id : UUID) :
  (forall r, In r (Db.complaints db) ->
             Supabase.has_id id r && Policy.can_update (session env) r = false) ->
  exists e, Supabase.update env db p id = inl e.
Proof.
  intro Hno. destruct (online env) eqn:Hon.
  - exists Supabase.PGRST116. now apply update_no_rows.
  - exists Supabase.FetchFailed. unfold Supabase.update. now rewrite Hon.
Qed.

(** ** C4: who may update *)

(** The part of the rule that the policies do enforce.  A caller without
    admin rights who does not own the target request -- in particular a
    caller with no session -- cannot update it: [updateComplaint] returns an
    error, the table and its change feed are untouched and the local list is
    unchanged. *)
Lemma updateComplaint_denied (env : Env) (db : Db.t) (st : State.t)
        (id : string) (updates : Updates.t) :
  Policy.jwt_is_admin (session env) = false ->
  (forall r, In r (Db.complaints db) -> Row.id r = id ->
             Policy.users_can_update (session env) r = false) ->
  exists error st',
    ComplaintContext.updateComplaint env db st id updates
    = (Some error, db, st')
    /\ State.complaints st' = State.complaints st.
Proof.
  intros Hadm Hown. unfold ComplaintContext.updateComplaint.
  destruct (session env) as [u|] eqn:Hs.
  - destruct (update_inl_or_hit env db (ComplaintContext.dbUpdates updates) id)
      as [e He].
    + intros r Hr. unfold Supabase.has_id.
      destruct (String.eqb (Row.id r) id) eqn:Hid; [|reflexivity].
      apply String.eqb_eq in Hid. simpl.
      unfold Policy.can_update, Policy.admins_can_update.
      rewrite Hs in *. rewrite Hadm, (Hown r Hr Hid). reflexivity.
    + rewrite He. eexists _, _. split; reflexivity.
  - eexists _, _. split; reflexivity.
Qed.

Lemma updateComplaint_denied_witness :
  exists error st',
    ComplaintContext.updateComplaint Sample.bob_env Sample.db3 State.initial
                                     "c-1" (Sample.set_status "resolved")
    = (Some error, Sample.db3, st')
    /\ State.complaints st' = State.complaints State.initial.
Proof.
  apply updateComplaint_denied.
  - reflexivity.
  - intros r [<-|[<-|[<-|[]]]] Hid; try discriminate Hid; reflexivity.
Defined.

(** C4.  The code at the failing input: Alice, a resident without admin
    rights, updates her own request [c-1] against PostgreSQL.  Each of
    status, priority and admin notes is written: [updateComplaint] returns
    no error, the stored row holds the new value, and the local list is
    rewritten.  The policy "Users can update their own complaints" is
    commented "(limited fields)" in the schema, yet it names no column. *)
Theorem owner_sets_status_priority_notes :
  Policy.jwt_is_admin (session Sample.alice_env) = false
  /\ In Sample.row_alice (Db.complaints Sample.db3)
  /\ (Row.status Sample.row_alice, Row.priority Sample.row_alice,
      Row.admin_notes Sample.row_alice)
     = ("pending", "medium", None)
  /\ (exists db' st',
        ComplaintContext.updateComplaint Sample.alice_env Sample.db3
          State.initial "c-1" (Sample.set_status "resolved")
        = (None, db', st')
        /\ map (fun r => (Row.id r, Row.status r)) (Db.complaints db')
           = [("c-1", "resolved"); ("c-2", "pending"); ("c-3", "pending")])
  /\ (exists db' st',
        ComplaintContext.updateComplaint Sample.alice_env Sample.db3
          State.initial "c-1" (Sample.set_priority "high")
        = (None, db', st')
        /\ map (fun r => (Row.id r, Row.priority r)) (Db.complaints db')
           = [("c-1", "high"); ("c-2", "medium"); ("c-3", "medium")])
  /\ (exists db' st',
        ComplaintContext.updateComplaint Sample.alice_env Sample.db3
          State.initial "c-1" (Sample.set_notes "Fixed it myself")
        = (None, db', st')
        /\ map (fun r => (Row.id r, Row.admin_notes r)) (Db.complaints db')
           = [("c-1", Some "Fixed it myself"); ("c-2", None); ("c-3", None)]).
Proof.
  split; [reflexivity|]. split; [now left|]. split; [reflexivity|].
  repeat split; eexists _, _; (split; [vm_compute; reflexivity|reflexivity]).
Qed.

(** ** C6: updating a request that does not exist *)

(** C6, as the code has it.  When no stored request has the target id, a
    signed-in caller's update -- in particular an admin's, of status,
    priority or notes -- fails with the generic error
    "Failed to update complaint", whether or not the endpoint is reached;
    the table and its change feed are untouched, the local list is
    unchanged, and one error toast with the same text is raised. *)
Theorem updateComplaint_missing_id_fails (env : Env) (db : Db.t)
        (st : State.t) (id : string) (updates : Updates.t) (u : User.t) :
  session env = Some u ->
  (forall r, In r (Db.complaints db) -> Row.id r <> id) ->
  ComplaintContext.updateComplaint env db st id updates
  = (Some "Failed to update complaint", db,
     State.mk (State.complaints st) (State.loading st)
              (State.toasts st
               ++ [toast_error "Failed to update complaint"])).
Proof.
  intros Hs Hno.
  destruct (update_inl_or_hit env db (ComplaintContext.dbUpdates updates) id)
    as [e He].
  { intros r Hr. unfold Supabase.has_id.
    destruct (String.eqb (Row.id r) id) eqn:Hid; [|reflexivity].
    apply String.eqb_eq in Hid. now destruct (Hno r Hr). }
  unfold ComplaintContext.updateComplaint. rewrite Hs, He. reflexivity.
Qed.

Lemma updateComplaint_missing_id_fails_witness :
  ComplaintContext.updateComplaint Sample.admin_env Sample.db3 State.initial
    "7d9f1c1e-8a52-4c0b-9d55-0c2f4a6b1e33" (Sample.set_status "resolved")
  = (Some "Failed to update complaint", Sample.db3,
     State.mk [] true [toast_error "Failed to update complaint"]).
Proof.
  apply (updateComplaint_missing_id_fails Sample.admin_env Sample.db3
           State.initial "7d9f1c1e-8a52-4c0b-9d55-0c2f4a6b1e33"
           (Sample.set_status "resolved") Sample.admin).
  - reflexivity.
  - intros r [<-|[<-|[<-|[]]]]; discriminate.
Defined.

(** The error for a missing id names no cause.  An admin's update of an id
    that no request has returns the very result that Bob's update of
    Alice's request [c-1] returns (the request exists, the policies hide
    it), and the very error that an admin gets for the existing request
    [c-2] when the endpoint is not reached. *)
Lemma missing_id_error_is_generic :
  let missing :=
    ComplaintContext.updateComplaint Sample.admin_env Sample.db3
      State.initial "7d9f1c1e-8a52-4c0b-9d55-0c2f4a6b1e33"
      (Sample.set_status "resolved") in
  let hidden :=
    ComplaintContext.updateComplaint Sample.bob_env Sample.db3
      State.initial "c-1" (Sample.set_status "resolved") in
  let unreached :=
    ComplaintContext.updateComplaint Fixture.offline_admin_env Sample.db3
      State.initial "c-2" (Sample.set_status "resolved") in
  (forall r, In r (Db.complaints Sample.db3) ->
             Row.id r <> "7d9f1c1e-8a52-4c0b-9d55-0c2f4a6b1e33")
  /\ In Sample.row_alice (Db.complaints Sample.db3)
  /\ In Sample.row_bob (Db.complaints Sample.db3)
  /\ fst (fst missing) = Some "Failed to update complaint"
  /\ missing = hidden
  /\ missing = unreached.
Proof.
  split; [intros r [<-|[<-|[<-|[]]]]; discriminate|].
  split; [now left|]. split; [right; now left|].
  split; [reflexivity|]. split; reflexivity.
Qed.

(** ** C7: applying the same update twice *)

(** The second of two equal admin updates writes the values the rows
    already hold, so only the trigger's stamp is new. *)
Lemma update_twice (env1 env2 : Env) (db : Db.t)
        (st1 st2 : State.t) (id : string) (updates : Updates.t)
        (u1 u2 : User.t) :
  session env1 = Some u1 -> ComplaintContext.isAdmin u1 = true ->
  session env2 = Some u2 -> ComplaintContext.isAdmin u2 = true ->
  online env2 = true ->
  let first := ComplaintContext.updateComplaint env1 db st1 id updates in
  let db1 := snd (fst first) in
  let second := ComplaintContext.updateComplaint env2 db1 st2 id updates in
  let db2 := snd (fst second) in
  fst (fst first) = None ->
  fst (fst second) = None
  /\ Db.complaints db2
     = map (fun r => if Supabase.has_id id r
                     then Supabase.update_updated_at_column (serverNow env2) r
                     else r)
           (Db.complaints db1)
  /\ Db.changes db1 = Db.changes db ++ [UPDATE id]
  /\ Db.changes db2 = Db.changes db1 ++ [UPDATE id].
Proof.
  intros Hs1 Ha1 Hs2 Ha2 Hon2 first db1 second db2 Hok.
  subst first db1 second db2.
  unfold ComplaintContext.updateComplaint in *.
  rewrite Hs1 in *. rewrite Hs2.
  set (p := ComplaintContext.dbUpdates updates) in *.
  destruct (Supabase.update env1 db p id) as [e|[r1 db1]] eqn:E1;
    simpl in Hok; [discriminate|]. simpl.
  destruct (update_inr _ _ _ _ _ _ E1) as (_ & Hne & (r0 & Hf & _) & Hrows & Hch).
  rewrite Hs1 in Hf, Hrows.
  assert (Hhit1 : forall r, Supabase.has_id id r && Policy.can_update (Some u1) r
                            = Supabase.has_id id r).
  { intro r. rewrite can_update_admin by exact Ha1. apply andb_true_r. }
  assert (Hhit2 : forall r, Supabase.has_id id r && Policy.can_update (Some u2) r
                            = Supabase.has_id id r).
  { intro r. rewrite can_update_admin by exact Ha2. apply andb_true_r. }
  rewrite (filter_ext _ _ Hhit1) in Hf.
  assert (Hf2 : filter (fun r => Supabase.has_id id r
                                 && Policy.can_update (session env2) r)
                       (Db.complaints db1)
                = [Supabase.update_updated_at_column (serverNow env1)
                     (Supabase.apply_updates p r0)]).
  { rewrite Hs2, (filter_ext _ _ Hhit2), Hrows.
    rewrite (map_ext _ (fun r => if Supabase.has_id id r
                                 then Supabase.update_updated_at_column
                                        (serverNow env1) (Supabase.apply_updates p r)
                                 else r))
      by (intro r; now rewrite Hhit1).
    rewrite filter_map_comm.
    - rewrite Hf. simpl.
      assert (Hin : In r0 (filter (Supabase.has_id id) (Db.complaints db)))
        by (rewrite Hf; now left).
      apply filter_In in Hin. now rewrite (proj2 Hin).
    - intro r. destruct (Supabase.has_id id r) eqn:Hr;
        [now rewrite has_id_written | exact Hr]. }
  rewrite (update_single env2 db1 p id _ Hon2 Hne Hf2). simpl.
  repeat split; try assumption.
  rewrite Hs2. apply map_ext_in. intros r Hr. rewrite Hhit2.
  destruct (Supabase.has_id id r) eqn:Hid; [|reflexivity].
  rewrite Hrows in Hr. apply in_map_iff in Hr. destruct Hr as (r' & <- & _).
  rewrite Hhit1 in *.
  destruct (Supabase.has_id id r') eqn:Hid'.
  - now rewrite apply_updates_idem.
  - congruence.
Qed.

(** What a successful admin update does to the table. *)
Lemma admin_update_ok (env : Env) (db db1 : Db.t) (st st1 : State.t)
      (id : string) (updates : Updates.t) (u : User.t) :
  session env = Some u -> ComplaintContext.isAdmin u = true ->
  ComplaintContext.updateComplaint env db st id updates = (None, db1, st1) ->
  Db.complaints db1
  = map (fun r => if Supabase.has_id id r
                  then Supabase.update_updated_at_column (serverNow env)
                         (Supabase.apply_updates
                            (ComplaintContext.dbUpdates updates) r)
                  else r)
        (Db.complaints db)
  /\ exists r0, In r0 (Db.complaints db) /\ Row.id r0 = id.
Proof.
  intros Hs Ha H. unfold ComplaintContext.updateComplaint in H.
  rewrite Hs in H.
  destruct (Supabase.update env db _ id) as [e|[r' db']] eqn:E;
    [discriminate|].
  inversion H; subst db'. clear H.
  destruct (update_inr _ _ _ _ _ _ E) as (_ & _ & (r0 & Hf & _) & Hrows & _).
  rewrite Hs in Hf, Hrows.
  assert (Hhit : forall r, Supabase.has_id id r && Policy.can_update (Some u) r
                           = Supabase.has_id id r).
  { intro r. rewrite can_update_admin by exact Ha. apply andb_true_r. }
  split.
  - rewrite Hrows. apply map_ext. intro r. now rewrite Hhit.
  - exists r0.
    assert (Hin : In r0 (filter (fun r => Supabase.has_id id r
                                         && Policy.can_update (Some u) r)
                                (Db.complaints db)))
      by (rewrite Hf; now left).
    apply filter_In in Hin. destruct Hin as [Hin Hh]. split; [exact Hin|].
    rewrite Hhit in Hh. now apply String.eqb_eq in Hh.
Qed.

(** C7.  When an admin's update of a request has succeeded -- the target row
    then holds the supplied status, priority and notes and the first call's
    database time as [updated_at] -- an admin who applies the same update
    again succeeds again.  The second call leaves every other row as it was
    and every column of the target row as the first call left it, except
    [updated_at], which now holds the second call's database time.  Each of
    the two calls adds exactly one change to the table's change feed. *)
Theorem updateComplaint_idempotent (env1 env2 : Env) (db : Db.t)
        (st1 st2 : State.t) (id : string) (updates : Updates.t)
        (u1 u2 : User.t) :
  session env1 = Some u1 -> ComplaintContext.isAdmin u1 = true ->
  session env2 = Some u2 -> ComplaintContext.isAdmin u2 = true ->
  online env2 = true ->
  let first := ComplaintContext.updateComplaint env1 db st1 id updates in
  let db1 := snd (fst first) in
  let second := ComplaintContext.updateComplaint env2 db1 st2 id updates in
  let db2 := snd (fst second) in
  fst (fst first) = None ->
  fst (fst second) = None
  /\ Db.complaints db2
     = map (fun r =>
              if String.eqb (Row.id r) id
              then Row.mk (Row.id r) (Row.title r) (Row.description r)
                          (Row.category r) (Row.location r) (Row.photo r)
                          (Row.contact_info r) (Row.status r)
                          (Row.priority r) (Row.date_submitted r)
                          (Row.admin_notes r) (Row.respondent r)
                          (Row.user_id r) (Row.user_name r)
                          (Row.created_at r) (serverNow env2)
              else r)
           (Db.complaints db1)
  /\ (exists r2, In r2 (Db.complaints db2)
                 /\ Row.id r2 = id
                 /\ Row.updated_at r2 = serverNow env2)
  /\ (forall r1, In r1 (Db.complaints db1) -> Row.id r1 = id ->
         Row.updated_at r1 = serverNow env1
         /\ (forall s, Updates.status updates = Some s -> Row.status r1 = s)
         /\ (forall p, Updates.priority updates = Some p ->
                       Row.priority r1 = p)
         /\ (forall n, Updates.adminNotes updates = Some n ->
                       Row.admin_notes r1 = Some n))
  /\ Db.changes db1 = Db.changes db ++ [UPDATE id]
  /\ Db.changes db2 = Db.changes db1 ++ [UPDATE id].
Proof.
  intros Hs1 Ha1 Hs2 Ha2 Hon2 first db1 second db2 Hok.
  destruct (update_twice env1 env2 db st1 st2 id updates u1 u2
              Hs1 Ha1 Hs2 Ha2 Hon2 Hok) as (H2 & Hrows2 & Hc1 & Hc2).
  fold first in H2, Hrows2, Hc1, Hc2. fold db1 in H2, Hrows2, Hc1, Hc2.
  fold second in H2, Hrows2, Hc2. fold db2 in Hrows2, Hc2.
  assert (E1 : first = (None, db1, snd first)).
  { subst db1. destruct first as [[e d] s1]. simpl in *. now subst e. }
  destruct (admin_update_ok env1 db db1 st1 (snd first) id updates u1
              Hs1 Ha1 E1) as (Hrows1 & r0 & Hin0 & Hid0).
  split; [exact H2|]. split; [exact Hrows2|]. split; [|split].
  - exists (Supabase.update_updated_at_column (serverNow env2)
              (Supabase.update_updated_at_column (serverNow env1)
                 (Supabase.apply_updates
                    (ComplaintContext.dbUpdates updates) r0))).
    split; [|split; [exact Hid0 | reflexivity]].
    rewrite Hrows2. apply in_map_iff. eexists. split.
    2:{ rewrite Hrows1. apply in_map_iff. exists r0. split; [|exact Hin0].
        unfold Supabase.has_id. rewrite (proj2 (String.eqb_eq _ _) Hid0).
        reflexivity. }
    unfold Supabase.has_id. simpl.
    now rewrite (proj2 (String.eqb_eq _ _) Hid0).
  - intros r1 Hin1 Hid1. rewrite Hrows1 in Hin1.
    apply in_map_iff in Hin1. destruct Hin1 as (r & Hr & _).
    unfold Supabase.has_id in Hr.
    destruct (String.eqb (Row.id r) id) eqn:Hid.
    + subst r1. simpl. split; [reflexivity|].
      split; [|split]; intros v Hv; rewrite Hv; reflexivity.
    + subst r1. apply String.eqb_neq in Hid. contradiction.
  - split; assumption.
Qed.

Lemma updateComplaint_idempotent_witness :
  let first :=
    ComplaintContext.updateComplaint Sample.admin_env Sample.db3
      State.initial "c-2" (Sample.set_status "resolved") in
  let second :=
    ComplaintContext.updateComplaint Sample.admin_env_later
      (snd (fst first)) State.initial "c-2" (Sample.set_status "resolved") in
  fst (fst first) = None
  /\ fst (fst second) = None
  /\ map (fun r => (Row.id r, Row.status r, Row.updated_at r))
         (Db.complaints (snd (fst first)))
     = [("c-1", "pending", 100%Z); ("c-2", "resolved", 500%Z);
        ("c-3", "pending", 300%Z)]
  /\ map (fun r => (Row.id r, Row.status r, Row.updated_at r))
         (Db.complaints (snd (fst second)))
     = [("c-1", "pending", 100%Z); ("c-2", "resolved", 600%Z);
        ("c-3", "pending", 300%Z)]
  /\ Db.changes (snd (fst second))
     = [INSERT "c-1"; INSERT "c-2"; INSERT "c-3"; UPDATE "c-2"; UPDATE "c-2"].
Proof.
  pose proof (updateComplaint_idempotent Sample.admin_env
                Sample.admin_env_later Sample.db3 State.initial
                State.initial "c-2" (Sample.set_status "resolved")
                Sample.admin Sample.admin
                eq_refl eq_refl eq_refl eq_refl eq_refl eq_refl)
    as (H2 & Hrows & _ & _ & _ & Hc).
  split; [reflexivity|]. split; [exact H2|].
  split; [reflexivity|]. split; [rewrite Hrows; reflexivity|].
  rewrite Hc. reflexivity.
Defined.

(** ** Inserts *)

Lemma insert_ok (env : Env) (db : Db.t) (d : Supabase.DbComplaint.t) :
  online env = true ->
  Policy.can_insert (session env) (Supabase.new_row env d) = true ->
  (returning_needs_select env = false
   \/ Policy.can_select (session env) (Supabase.new_row env d) = true) ->
  existsb (Supabase.has_id (gen_random_uuid env)) (Db.complaints db) = false ->
  Supabase.insert env db d
  = inr (Supabase.new_row env d,
         Db.mk (Db.complaints db ++ [Supabase.new_row env d])
               (Db.changes db ++ [INSERT (gen_random_uuid env)])).
Proof.
  intros Hon Hins Hsel Hfresh. unfold Supabase.insert.
  rewrite Hon, Hins. simpl.
  replace (returning_needs_select env
           && negb (Policy.can_select (session env) (Supabase.new_row env d)))
    with false.
  - simpl in Hfresh. now rewrite Hfresh.
  - destruct Hsel as [-> | ->]; [reflexivity | now rewrite andb_false_r].
Qed.

Lemma insert_inr (env : Env) (db : Db.t) (d : Supabase.DbComplaint.t)
      (r : Row.t) (db' : Db.t) :
  Supabase.insert env db d = inr (r, db') ->
  r = Supabase.new_row env d
  /\ Db.complaints db' = Db.complaints db ++ [r]
  /\ Db.changes db' = Db.changes db ++ [INSERT (Row.id r)].
Proof.
  unfold Supabase.insert. intro H.
  repeat match type of H with
         | (if ?b then _ else _) = _ => destruct b; try discriminate
         end.
  inversion H; subst. auto.
Qed.

Lemma sql_eq_refl (a : UUID) : Policy.sql_eq (Some a) (Some a) = true.
Proof. apply String.eqb_refl. Qed.

Lemma prepare_guest (env : Env) (db : Db.t) (c : ComplaintData.t) :
  ComplaintContext.isGuestMode env = true ->
  ComplaintContext.prepare env db c
  = inr (Supabase.DbComplaint.mk
           (ComplaintData.title c) (ComplaintData.description c)
           (ComplaintData.category c) (ComplaintData.location c)
           (ComplaintData.photo c) (ComplaintData.contactInfo c)
           (ComplaintData.status c) (ComplaintData.priority c)
           (ComplaintData.adminNotes c) (ComplaintData.respondent c)
           None
           (Some (ComplaintContext.anonymousName
                    (ComplaintContext.nextNumber env db)))
           (clientNow env)).
Proof.
  intro Hg. unfold ComplaintContext.prepare.
  now rewrite Hg, andb_false_r.
Qed.

Lemma prepare_signed_in (env : Env) (db : Db.t) (c : ComplaintData.t)
      (u : User.t) :
  session env = Some u ->
  ComplaintContext.isGuestMode env = false ->
  exists userName,
    ComplaintContext.prepare env db c
    = inr (Supabase.DbComplaint.mk
             (ComplaintData.title c) (ComplaintData.description c)
             (ComplaintData.category c) (ComplaintData.location c)
             (ComplaintData.photo c) (ComplaintData.contactInfo c)
             (ComplaintData.status c) (ComplaintData.priority c)
             (ComplaintData.adminNotes c) (ComplaintData.respondent c)
             (Some (User.id u)) (Some userName) (clientNow env)).
Proof.
  intros Hs Hg. unfold ComplaintContext.prepare.
  rewrite Hs, Hg. simpl. eexists. reflexivity.
Qed.

(** A signed-in caller outside guest mode: the insert passes the owner's
    INSERT and SELECT policies, so it is stored whatever the payload. *)
Lemma addComplaint_signed_in (env : Env) (db : Db.t) (st : State.t)
      (c : ComplaintData.t) (u : User.t) :
  session env = Some u ->
  ComplaintContext.isGuestMode env = false ->
  online env = true ->
  existsb (Supabase.has_id (gen_random_uuid env)) (Db.complaints db) = false ->
  exists userName,
    let row :=
      Supabase.new_row env
        (Supabase.DbComplaint.mk
           (ComplaintData.title c) (ComplaintData.description c)
           (ComplaintData.category c) (ComplaintData.location c)
           (ComplaintData.photo c) (ComplaintData.contactInfo c)
           (ComplaintData.status c) (ComplaintData.priority c)
           (ComplaintData.adminNotes c) (ComplaintData.respondent c)
           (Some (User.id u)) (Some userName) (clientNow env)) in
    ComplaintContext.addComplaint env db st c
    = (None,
       Db.mk (Db.complaints db ++ [row])
             (Db.changes db ++ [INSERT (gen_random_uuid env)]),
       State.mk (ComplaintContext.transform row :: State.complaints st)
                (State.loading st)
                (State.toasts st
                 ++ [toast_success "Complaint submitted successfully"])).
Proof.
  intros Hs Hg Hon Hfresh.
  destruct (prepare_signed_in env db c u Hs Hg) as [userName Hp].
  exists userName. unfold ComplaintContext.addComplaint. rewrite Hp.
  unfold ComplaintContext.commit. rewrite insert_ok; try assumption.
  - reflexivity.
  - unfold Policy.can_insert, Policy.users_can_insert. rewrite Hs. simpl.
    now rewrite String.eqb_refl.
  - right. unfold Policy.can_select, Policy.users_can_view. rewrite Hs. simpl.
    now rewrite String.eqb_refl.
Qed.

(** ** C5: what a submission checks *)

(** C5, as the code has it.  Neither [handleSubmit] nor [addComplaint]
    checks the payload: the form's fields are copied as they are (the
    respondent is kept exactly when the category is a dispute category), and
    for a signed-in caller outside guest mode every payload is inserted and
    the call succeeds.  The stored row and the complaint added to the list
    carry the payload's fields unchanged, so a respondent that was supplied
    round-trips intact. *)
Theorem addComplaint_stores_payload_unchecked
        (env : Env) (db : Db.t) (st : State.t) (c : ComplaintData.t)
        (u : User.t) :
  session env = Some u ->
  ComplaintContext.isGuestMode env = false ->
  online env = true ->
  existsb (Supabase.has_id (gen_random_uuid env)) (Db.complaints db) = false ->
  (exists row st',
      ComplaintContext.addComplaint env db st c
      = (None,
         Db.mk (Db.complaints db ++ [row])
               (Db.changes db ++ [INSERT (gen_random_uuid env)]),
         st')
      /\ State.complaints st'
         = ComplaintContext.transform row :: State.complaints st
      /\ Row.title row = ComplaintData.title c
      /\ Row.description row = ComplaintData.description c
      /\ Row.category row = ComplaintData.category c
      /\ Row.location row = ComplaintData.location c
      /\ Row.contact_info row = ComplaintData.contactInfo c
      /\ Row.respondent row = ComplaintData.respondent c
      /\ Complaint.respondent (ComplaintContext.transform row)
         = ComplaintData.respondent c)
  /\ (forall form : ComplaintForm.t,
        let c' := fst (ComplaintForm.handleSubmit form) in
        ComplaintData.title c' = ComplaintForm.title form
        /\ ComplaintData.description c' = ComplaintForm.description form
        /\ ComplaintData.category c' = ComplaintForm.category form
        /\ ComplaintData.location c' = ComplaintForm.location form
        /\ ComplaintData.contactInfo c' = ComplaintForm.contactInfo form
        /\ ComplaintData.respondent c'
           = if ComplaintForm.requiresRespondent (ComplaintForm.category form)
             then Some (ComplaintForm.respondent form)
             else None).
Proof.
  intros Hs Hg Hon Hfresh. split.
  - destruct (addComplaint_signed_in env db st c u Hs Hg Hon Hfresh)
      as [userName H].
    cbv zeta in H. rewrite H. eexists _, _.
    split; [reflexivity|]. simpl. repeat split.
  - intro form. simpl. repeat split.
Qed.

Lemma addComplaint_stores_payload_unchecked_witness :
  exists row st',
    ComplaintContext.addComplaint
      Sample.alice_env Sample.db3 State.initial
      (fst (ComplaintForm.handleSubmit Sample.dispute_form))
    = (None,
       Db.mk (Db.complaints Sample.db3 ++ [row])
             (Db.changes Sample.db3 ++ [INSERT "u-1"]),
       st')
    /\ State.complaints st' = [ComplaintContext.transform row]
    /\ Row.title row = "Fence"
    /\ Row.description row = "Neighbour moved the fence"
    /\ Row.category row = "civil-disputes"
    /\ Row.location row = "Purok 2"
    /\ Row.contact_info row = "0918"
    /\ Row.respondent row = Some "Mr. Cruz"
    /\ Complaint.respondent (ComplaintContext.transform row) = Some "Mr. Cruz".
Proof.
  exact (proj1 (addComplaint_stores_payload_unchecked
                  Sample.alice_env Sample.db3 State.initial
                  (fst (ComplaintForm.handleSubmit Sample.dispute_form))
                  Sample.alice eq_refl eq_refl eq_refl eq_refl)).
Defined.

(** A dispute complaint that names no respondent is accepted and stored
    without one; so is a complaint whose required fields are all empty. *)
Lemma dispute_without_respondent_is_stored :
  ComplaintForm.requiresRespondent (ComplaintData.category Sample.dispute) = true
  /\ ComplaintData.respondent Sample.dispute = None
  /\ (exists db' st',
        ComplaintContext.addComplaint Sample.alice_env Sample.db3
                                      State.initial Sample.dispute
        = (None, db', st')
        /\ map Row.category (Db.complaints db')
           = ["infrastructure"; "noise"; "sanitation"; "civil-disputes"]
        /\ map Row.respondent (Db.complaints db') = [None; None; None; None])
  /\ (exists db' st',
        ComplaintContext.addComplaint
          Sample.alice_env Sample.db3 State.initial
          (fst (ComplaintForm.handleSubmit ComplaintForm.blank))
        = (None, db', st')
        /\ map Row.title (Db.complaints db')
           = ["Pothole"; "Noise"; "Flood"; EmptyString]).
Proof.
  split; [reflexivity|]. split; [reflexivity|].
  split; eexists _, _; (split; [vm_compute; reflexivity|]); repeat split.
Qed.

(** ** Guest submissions *)

(** Only an admin can read guest rows: the SELECT policies admit a row for
    a caller whose id equals its [user_id], and a guest row has none.  For
    every other caller the "last guest" query is empty and the next number
    is 1, whatever the table holds. *)
Lemma nextNumber_non_admin (env : Env) (db : Db.t) :
  Policy.jwt_is_admin (session env) = false ->
  ComplaintContext.nextNumber env db = 1%N.
Proof.
  intro Hadm. unfold ComplaintContext.nextNumber, Supabase.select_last_guest.
  destruct (online env); simpl; [|reflexivity].
  rewrite filter_none; [reflexivity|].
  intros r _. unfold Policy.can_select, Policy.admins_can_view, Policy.users_can_view.
  rewrite Hadm, orb_false_r.
  destruct (Row.user_id r) as [owner|]; simpl.
  - now rewrite andb_false_r.
  - unfold Policy.sql_eq. now destruct (Policy.auth_uid (session env)).
Qed.

(** ** C9: the guest-mode flag takes precedence over the session *)

(** With the guest-mode flag set and PostgreSQL's rule for returned rows,
    the submission of a caller who is not an admin is refused, whoever the
    caller is and whatever the table holds.  The guest branch runs and
    builds a record with no [user_id] under the name Anonymous001; the
    policy "Guests can insert complaints" admits it; but no SELECT policy
    shows a row without [user_id] to such a caller, so the insert that asks
    for the new row back fails as a whole and nothing is stored. *)
Lemma guest_flag_submission_refused (env : Env) (db : Db.t) (st : State.t)
      (c : ComplaintData.t) :
  ComplaintContext.isGuestMode env = true ->
  Policy.jwt_is_admin (session env) = false ->
  returning_needs_select env = true ->
  online env = true ->
  (exists d,
      ComplaintContext.prepare env db c = inr d
      /\ Supabase.DbComplaint.user_id d = None
      /\ Supabase.DbComplaint.user_name d = Some "Anonymous001"
      /\ Policy.can_insert (session env) (Supabase.new_row env d) = true
      /\ Policy.can_select (session env) (Supabase.new_row env d) = false)
  /\ ComplaintContext.addComplaint env db st c
     = (Some "Failed to submit complaint", db,
        State.mk (State.complaints st) (State.loading st)
                 (State.toasts st
                  ++ [toast_error
                        "Failed to submit complaint: new row violates row-level security policy for table complaints"])).
Proof.
  intros Hg Hadm Hret Hon.
  pose proof (prepare_guest env db c Hg) as Hp.
  rewrite (nextNumber_non_admin env db Hadm) in Hp.
  assert (Hins : forall d, Supabase.DbComplaint.user_id d = None ->
                           Policy.can_insert (session env)
                                             (Supabase.new_row env d) = true).
  { intros d Hd. unfold Policy.can_insert, Policy.guests_can_insert. simpl.
    rewrite Hd. apply orb_true_r. }
  assert (Hsel : forall d, Supabase.DbComplaint.user_id d = None ->
                           Policy.can_select (session env)
                                             (Supabase.new_row env d) = false).
  { intros d Hd.
    unfold Policy.can_select, Policy.admins_can_view, Policy.users_can_view.
    rewrite Hadm, orb_false_r. simpl. rewrite Hd.
    unfold Policy.sql_eq. now destruct (Policy.auth_uid (session env)). }
  split.
  - eexists. split; [exact Hp|]. split; [reflexivity|].
    split; [reflexivity|]. split; [now apply Hins | now apply Hsel].
  - unfold ComplaintContext.addComplaint. rewrite Hp.
    unfold ComplaintContext.commit, Supabase.insert.
    rewrite Hon, Hret, Hins, Hsel by reflexivity. reflexivity.
Qed.

(** C9.  The code at the failing input: Bob, a resident, is signed in while
    the guest-mode flag is set, and submits against PostgreSQL.  The flag
    does take precedence over the session -- the record [addComplaint]
    builds has no [user_id] and the name Anonymous001, not Bob's id and
    e-mail, and the guest INSERT policy admits it -- but the record is not
    stored: the row cannot be returned to Bob, the call answers
    "Failed to submit complaint", and the table, its change feed and the
    local list are as they were.  The same submission without the flag is
    stored as Bob's own. *)
Theorem guest_flag_with_resident_session :
  session Fixture.bob_guest_pg = Some Sample.bob
  /\ ComplaintContext.isAdmin Sample.bob = false
  /\ ComplaintContext.isGuestMode Fixture.bob_guest_pg = true
  /\ returning_needs_select Fixture.bob_guest_pg = true
  /\ (exists d,
        ComplaintContext.prepare Fixture.bob_guest_pg Sample.db3
                                 Sample.pothole = inr d
        /\ Supabase.DbComplaint.user_id d = None
        /\ Supabase.DbComplaint.user_name d = Some "Anonymous001"
        /\ Policy.can_insert (Some Sample.bob)
                             (Supabase.new_row Fixture.bob_guest_pg d) = true
        /\ Policy.can_select (Some Sample.bob)
                             (Supabase.new_row Fixture.bob_guest_pg d) = false)
  /\ ComplaintContext.addComplaint Fixture.bob_guest_pg Sample.db3
       State.initial Sample.pothole
     = (Some "Failed to submit complaint", Sample.db3,
        State.mk [] true
          [toast_error
             "Failed to submit complaint: new row violates row-level security policy for table complaints"])
  /\ (exists row st',
        ComplaintContext.addComplaint Sample.bob_env Sample.db3
          State.initial Sample.pothole
        = (None,
           Db.mk (Db.complaints Sample.db3 ++ [row])
                 (Db.changes Sample.db3 ++ [INSERT "u-2"]),
           st')
        /\ Row.user_id row = Some "b0b"
        /\ Row.user_name row = Some "bob@example.com").
Proof.
  split; [reflexivity|]. split; [reflexivity|]. split; [reflexivity|].
  split; [reflexivity|]. split; [|split].
  - eexists. split; [vm_compute; reflexivity|]. repeat split.
  - vm_compute. reflexivity.
  - eexists _, _. split; [vm_compute; reflexivity|]. split; reflexivity.
Qed.

(** ** C10: status and priority are free text *)

Lemma has_id_self (r : Row.t) : Supabase.has_id (Row.id r) r = true.
Proof. apply String.eqb_refl. Qed.

Lemma has_id_true (id : UUID) (r : Row.t) :
  Supabase.has_id id r = true <-> Row.id r = id.
Proof. apply String.eqb_eq. Qed.

(** With [id] as primary key a lookup by id finds at most the row itself. *)
Lemma filter_has_id_unique (rows : list Row.t) (r : Row.t) :
  NoDup (map Row.id rows) -> In r rows ->
  filter (Supabase.has_id (Row.id r)) rows = [r].
Proof.
  induction rows as [|x rows IH]; simpl; intros Hnd Hin; [contradiction|].
  inversion Hnd as [|? ? Hx Hnd']; subst.
  destruct Hin as [->|Hin].
  - rewrite has_id_self. f_equal. apply filter_none.
    intros y Hy. destruct (Supabase.has_id (Row.id r) y) eqn:E; [|reflexivity].
    apply has_id_true in E. exfalso. apply Hx. rewrite <- E. now apply in_map.
  - destruct (Supabase.has_id (Row.id r) x) eqn:E.
    + apply has_id_true in E. exfalso. apply Hx. rewrite E. now apply in_map.
    + now apply IH.
Qed.

(** C10.  Neither path checks [status] or [priority] against the listed
    values.  On creation, for a signed-in caller outside guest mode, the
    stored row carries the payload's [status] and [priority] whatever
    strings they are.  On update by an admin of an existing request, the
    call succeeds and the request's row carries the supplied [status] and
    [priority] whatever strings they are (and keeps its own where none is
    supplied). *)
Theorem status_priority_unchecked :
  (forall (env : Env) (db : Db.t) (st : State.t) (c : ComplaintData.t)
          (u : User.t),
      session env = Some u ->
      ComplaintContext.isGuestMode env = false ->
      online env = true ->
      existsb (Supabase.has_id (gen_random_uuid env)) (Db.complaints db) = false ->
      exists row st',
        ComplaintContext.addComplaint env db st c
        = (None,
           Db.mk (Db.complaints db ++ [row])
                 (Db.changes db ++ [INSERT (gen_random_uuid env)]),
           st')
        /\ Row.status row = ComplaintData.status c
        /\ Row.priority row = ComplaintData.priority c)
  /\
  (forall (env : Env) (db : Db.t) (st : State.t) (updates : Updates.t)
          (u : User.t) (r : Row.t),
      session env = Some u ->
      ComplaintContext.isAdmin u = true ->
      online env = true ->
      NoDup (map Row.id (Db.complaints db)) ->
      In r (Db.complaints db) ->
      Supabase.DbUpdates.is_empty (ComplaintContext.dbUpdates updates) = false ->
      exists r' db' st',
        ComplaintContext.updateComplaint env db st (Row.id r) updates
        = (None, db', st')
        /\ In r' (Db.complaints db')
        /\ (forall x, In x (Db.complaints db') -> Row.id x = Row.id r -> x = r')
        /\ Row.status r' = Supabase.set (Updates.status updates) (Row.status r)
        /\ Row.priority r'
           = Supabase.set (Updates.priority updates) (Row.priority r)).
Proof.
  split.
  - intros env db st c u Hs Hg Hon Hfresh.
    destruct (addComplaint_signed_in env db st c u Hs Hg Hon Hfresh)
      as [userName H].
    cbv zeta in H. rewrite H. eexists _, _.
    split; [reflexivity|]. split; reflexivity.
  - intros env db st updates u r Hs Ha Hon Hnd Hin Hne.
    set (p := ComplaintContext.dbUpdates updates) in *.
    set (new := fun x => Supabase.update_updated_at_column (serverNow env)
                           (Supabase.apply_updates p x)).
    assert (Hhit : forall x, Supabase.has_id (Row.id r) x
                             && Policy.can_update (session env) x
                             = Supabase.has_id (Row.id r) x).
    { intro x. rewrite Hs, can_update_admin by exact Ha. apply andb_true_r. }
    assert (Hf : filter (fun x => Supabase.has_id (Row.id r) x
                                  && Policy.can_update (session env) x)
                        (Db.complaints db) = [r]).
    { rewrite (filter_ext _ _ Hhit). now apply filter_has_id_unique. }
    unfold ComplaintContext.updateComplaint. rewrite Hs.
    fold p. rewrite (update_single env db p (Row.id r) r Hon Hne Hf).
    exists (new r). eexists _, _. split; [reflexivity|]. simpl.
    split; [|split; [|split; reflexivity]].
    + apply in_map_iff. exists r. split; [|exact Hin].
      now rewrite Hhit, has_id_self.
    + intros x Hx Hid. apply in_map_iff in Hx. destruct Hx as (y & <- & Hy).
      rewrite Hhit in *.
      destruct (Supabase.has_id (Row.id r) y) eqn:E.
      * assert (Hy' : In y (filter (Supabase.has_id (Row.id r)) (Db.complaints db)))
          by (apply filter_In; now split).
        rewrite (filter_has_id_unique _ _ Hnd Hin) in Hy'.
        destruct Hy' as [->|[]]. reflexivity.
      * apply has_id_true in Hid. congruence.
Qed.

Lemma status_priority_unchecked_witness :
  (exists row st',
      ComplaintContext.addComplaint Sample.alice_env Sample.db3 State.initial
                                    Sample.odd_labels
      = (None,
         Db.mk (Db.complaints Sample.db3 ++ [row])
               (Db.changes Sample.db3 ++ [INSERT "u-1"]),
         st')
      /\ Row.status row = "on hold"
      /\ Row.priority row = "urgent!")
  /\
  (exists r' db' st',
      ComplaintContext.updateComplaint Sample.admin_env Sample.db3
                                       State.initial "c-2"
                                       (Sample.set_status "escalated")
      = (None, db', st')
      /\ In r' (Db.complaints db')
      /\ (forall x, In x (Db.complaints db') -> Row.id x = "c-2" -> x = r')
      /\ Row.status r' = "escalated"
      /\ Row.priority r' = "medium").
Proof.
  split.
  - exact (proj1 status_priority_unchecked Sample.alice_env Sample.db3
                 State.initial Sample.odd_labels Sample.alice
                 eq_refl eq_refl eq_refl eq_refl).
  - apply (proj2 status_priority_unchecked Sample.admin_env Sample.db3
                 State.initial (Sample.set_status "escalated") Sample.admin
                 Sample.row_bob); try reflexivity.
    + repeat constructor; simpl; intuition discriminate.
    + simpl. auto.
Defined.

(** ** Anonymous names *)

Lemma take_digits_uint (d : Decimal.uint) :
  JS.take_digits (NilEmpty.string_of_uint d) = NilEmpty.string_of_uint d.
Proof. induction d; simpl; try reflexivity; now rewrite IHd. Qed.

Lemma take_digits_zeros (k : nat) (s : string) :
  JS.take_digits (JS.zeros k ++ s) = (JS.zeros k ++ JS.take_digits s)%string.
Proof. induction k; simpl; [reflexivity | now rewrite IHk]. Qed.

Lemma take_digits_padded (n : N) :
  JS.take_digits (JS.padStart 3 (JS.toString n)) = JS.padStart 3 (JS.toString n).
Proof.
  unfold JS.padStart, JS.toString.
  now rewrite take_digits_zeros, take_digits_uint.
Qed.

Lemma length_zeros (k : nat) : String.length (JS.zeros k) = k.
Proof. induction k; simpl; [reflexivity | now rewrite IHk]. Qed.

Lemma length_append (s t : string) :
  String.length (s ++ t) = (String.length s + String.length t)%nat.
Proof. induction s; simpl; [reflexivity | now rewrite IHs]. Qed.

(** Padding never truncates: the padded text is as long as the longer of
    the width and the text, so the number of digits grows with the number. *)
Lemma length_padStart (width : nat) (s : string) :
  String.length (JS.padStart width s) = Nat.max width (String.length s).
Proof.
  unfold JS.padStart. rewrite length_append, length_zeros. lia.
Qed.

Lemma parseInt_zeros (k : nat) (s : string) :
  JS.parseInt (JS.zeros k ++ s) = JS.parseInt s.
Proof.
  induction k; simpl; [reflexivity|]. rewrite <- IHk.
  unfold JS.parseInt. simpl.
  now destruct (NilEmpty.uint_of_string (JS.zeros k ++ s)).
Qed.

(** Reading back the digits of a name gives the number it was made from. *)
Lemma parseInt_padded (n : N) :
  JS.parseInt (JS.padStart 3 (JS.toString n)) = n.
Proof.
  unfold JS.padStart. rewrite parseInt_zeros.
  unfold JS.parseInt, JS.toString. rewrite NilEmpty.usu.
  apply DecimalN.Unsigned.of_to.
Qed.

Lemma regex_match_unfold (s : string) :
  JS.regex_match s
  = match JS.match_here s with
    | Some ds => Some ds
    | None =>
        match s with
        | EmptyString => None
        | String _ r => JS.regex_match r
        end
    end.
Proof. now destruct s. Qed.

(** A generated name is the prefix followed by at least three digits, and
    the pattern of [addComplaint] reads those digits back. *)
Lemma regex_match_anonymousName (n : N) :
  JS.regex_match (ComplaintContext.anonymousName n)
  = Some (JS.padStart 3 (JS.toString n)).
Proof.
  unfold ComplaintContext.anonymousName.
  pose proof (take_digits_padded n) as T.
  pose proof (length_padStart 3 (JS.toString n)) as L.
  remember (JS.padStart 3 (JS.toString n)) as digits eqn:E. clear E.
  assert (H : JS.match_here ("Anonymous" ++ digits) = Some digits).
  { unfold JS.match_here.
    change (JS.strip_prefix "Anonymous" ("Anonymous" ++ digits))
      with (Some digits).
    cbv beta iota. rewrite T.
    assert (W : (3 <= String.length digits)%nat)
      by (rewrite L; apply Nat.le_max_l).
    destruct digits; [simpl in W; lia | reflexivity]. }
  rewrite regex_match_unfold. now rewrite H.
Qed.

Lemma anonymousName_injective (n m : N) :
  ComplaintContext.anonymousName n = ComplaintContext.anonymousName m -> n = m.
Proof.
  intro H. apply (f_equal JS.regex_match) in H.
  rewrite !regex_match_anonymousName in H. inversion H as [H'].
  apply (f_equal JS.parseInt) in H'. now rewrite !parseInt_padded in H'.
Qed.

(** When the caller's "last guest" query returns a generated name, the next
    number is its successor. *)
Lemma nextNumber_after (env : Env) (db : Db.t) (n : N) :
  Supabase.select_last_guest env db
  = inr (Some (ComplaintContext.anonymousName n)) ->
  ComplaintContext.nextNumber env db = (n + 1)%N.
Proof.
  intro H. unfold ComplaintContext.nextNumber. rewrite H.
  rewrite regex_match_anonymousName, parseInt_padded.
  reflexivity.
Qed.

Example anonymousName_widths :
  map ComplaintContext.anonymousName [1; 2; 42; 999; 1000; 12345]%N
  = ["Anonymous001"; "Anonymous002"; "Anonymous042"; "Anonymous999";
     "Anonymous1000"; "Anonymous12345"].
Proof. reflexivity. Qed.

(** ** C2: two guest submissions in a row *)

(** C2, at its failing input: a visitor with no session submits twice, one
    call after the other, against an empty table.  Both calls generate
    [Anonymous001]: the visitor cannot read the row the first call stored.
    Where returning the inserted row needs no SELECT policy both rows are
    stored under that one name; where it does, both inserts are refused. *)
Theorem guest_submits_twice (strict : bool) :
  let first :=
    ComplaintContext.addComplaint (Sample.visitor1 strict) Db.empty
                                  State.initial Sample.pothole in
  let db1 := snd (fst first) in
  let second :=
    ComplaintContext.addComplaint (Sample.visitor2 strict) db1
                                  State.initial Sample.pothole in
  option_map Supabase.DbComplaint.user_name
    (match ComplaintContext.prepare (Sample.visitor1 strict) Db.empty
                                    Sample.pothole with
     | inr d => Some d | inl _ => None end)
  = Some (Some "Anonymous001")
  /\ option_map Supabase.DbComplaint.user_name
       (match ComplaintContext.prepare (Sample.visitor2 strict) db1
                                       Sample.pothole with
        | inr d => Some d | inl _ => None end)
     = Some (Some "Anonymous001")
  /\ if strict
     then fst (fst first) = Some "Failed to submit complaint"
          /\ fst (fst second) = Some "Failed to submit complaint"
          /\ Db.complaints (snd (fst second)) = []
     else fst (fst first) = None
          /\ fst (fst second) = None
          /\ Interleaving.stored_names (snd (fst second))
             = [Some "Anonymous001"; Some "Anonymous001"].
Proof.
  destruct strict; vm_compute; repeat split.
Qed.

(** ** C1: guest submissions in flight together *)

(** C1, at its failing input: two guest-mode submissions against an empty
    table whose reads of the last guest name are both served before either
    insert (schedule 0, 1, 0, 1).  Both generate [Anonymous001] and both
    rows are stored under it -- for two visitors without a session, and
    equally for two callers who can read guest rows (admin sessions with
    the flag set), for whom the same two submissions run one after the
    other (schedule 0, 0, 1, 1) get [Anonymous001] and [Anonymous002]. *)
Theorem concurrent_guests_share_a_handle :
  let visitors :=
    [Interleaving.Pending (Sample.visitor1 false) Sample.pothole;
     Interleaving.Pending (Sample.visitor2 false) Sample.pothole] in
  let admins :=
    [Interleaving.Pending Sample.admin_tab1 Sample.pothole;
     Interleaving.Pending Sample.admin_tab2 Sample.pothole] in
  let done := [Interleaving.Finished None; Interleaving.Finished None] in
  snd (Interleaving.run [0; 1; 0; 1]%nat Db.empty visitors) = done
  /\ Interleaving.stored_names
       (fst (Interleaving.run [0; 1; 0; 1]%nat Db.empty visitors))
     = [Some "Anonymous001"; Some "Anonymous001"]
  /\ snd (Interleaving.run [0; 1; 0; 1]%nat Db.empty admins) = done
  /\ Interleaving.stored_names
       (fst (Interleaving.run [0; 1; 0; 1]%nat Db.empty admins))
     = [Some "Anonymous001"; Some "Anonymous001"]
  /\ snd (Interleaving.run [0; 0; 1; 1]%nat Db.empty admins) = done
  /\ Interleaving.stored_names
       (fst (Interleaving.run [0; 0; 1; 1]%nat Db.empty admins))
     = [Some "Anonymous001"; Some "Anonymous002"].
Proof.
  vm_compute. repeat split.
Qed.

(** Two guest-mode calls by equally privileged callers that read the same
    snapshot of the table generate the same name. *)
Lemma same_snapshot_same_name (env1 env2 : Env) (db : Db.t) :
  session env1 = session env2 -> online env1 = online env2 ->
  ComplaintContext.nextNumber env1 db = ComplaintContext.nextNumber env2 db.
Proof.
  intros Hs Ho. unfold ComplaintContext.nextNumber, Supabase.select_last_guest.
  now rewrite Hs, Ho.
Qed.

(** ** C8: timestamps *)

Lemma prepare_date (env : Env) (db : Db.t) (c : ComplaintData.t)
      (d : Supabase.DbComplaint.t) :
  ComplaintContext.prepare env db c = inr d ->
  Supabase.DbComplaint.date_submitted d = clientNow env.
Proof.
  unfold ComplaintContext.prepare. intro H.
  destruct (Supabase.is_null (session env) && negb (ComplaintContext.isGuestMode env));
    [discriminate|].
  destruct (ComplaintContext.isGuestMode env).
  - now inversion H.
  - destruct (session env); [now inversion H | discriminate].
Qed.

(** A submission leaves the table as it was or appends one row, submitted
    at the browser's time and stamped at the database's. *)
Lemma exec_add_cases (env : Env) (c : ComplaintData.t) (db : Db.t) :
  History.exec (History.Add env c) db = db
  \/ exists row,
      Db.complaints (History.exec (History.Add env c) db)
      = Db.complaints db ++ [row]
      /\ Row.date_submitted row = clientNow env
      /\ Row.updated_at row = serverNow env.
Proof.
  simpl. unfold ComplaintContext.addComplaint.
  destruct (ComplaintContext.prepare env db c) as [e|d] eqn:Hp; [now left|].
  unfold ComplaintContext.commit.
  destruct (Supabase.insert env db d) as [e|[row db']] eqn:Hi; [now left|].
  right. apply insert_inr in Hi. destruct Hi as (-> & Hrows & _).
  exists (Supabase.new_row env d). simpl. split; [exact Hrows|].
  split; [now apply prepare_date in Hp | reflexivity].
Qed.

(** An update leaves the table as it was or rewrites rows in place, each
    either kept or written and stamped at the database's time. *)
Lemma exec_update_cases (env : Env) (id : string) (updates : Updates.t)
      (db : Db.t) :
  History.exec (History.Update env id updates) db = db
  \/ exists hit : Row.t -> bool,
      Db.complaints (History.exec (History.Update env id updates) db)
      = map (fun r => if hit r
                      then Supabase.update_updated_at_column (serverNow env)
                             (Supabase.apply_updates
                                (ComplaintContext.dbUpdates updates) r)
                      else r)
            (Db.complaints db).
Proof.
  simpl. unfold ComplaintContext.updateComplaint.
  destruct (session env); [|now left].
  destruct (Supabase.update env db _ id) as [e|[r' db']] eqn:Hu; [now left|].
  right. apply update_inr in Hu. destruct Hu as (_ & _ & _ & Hrows & _).
  eexists. exact Hrows.
Qed.

Lemma exec_keeps_birth (op : History.Op) (db : Db.t) :
  exists later,
    map History.birth (Db.complaints (History.exec op db))
    = map History.birth (Db.complaints db) ++ later.
Proof.
  destruct op as [env c|env id updates].
  - destruct (exec_add_cases env c db) as [->|(row & -> & _)].
    + exists []. now rewrite app_nil_r.
    + exists [History.birth row]. now rewrite map_app.
  - destruct (exec_update_cases env id updates db) as [->|(hit & ->)];
      exists []; rewrite app_nil_r; [reflexivity|].
    rewrite map_map. apply map_ext. intro r. now destruct (hit r).
Qed.

Lemma stamped_later (t t' : Timestamp) (db : Db.t) :
  (t <= t')%Z -> History.stamped t db -> History.stamped t' db.
Proof.
  intros Hle H. unfold History.stamped in *.
  eapply Forall_impl; [|exact H]. simpl. intros r [? ?]. split; lia.
Qed.

Lemma exec_keeps_stamped (op : History.Op) (db : Db.t) (last : Timestamp) :
  History.stamped last db ->
  (last <= serverNow (History.env_of op))%Z ->
  History.browser_not_ahead op ->
  History.stamped (serverNow (History.env_of op)) (History.exec op db).
Proof.
  intros Hst Hmono Hskew. destruct op as [env c|env id updates]; simpl in Hmono, Hskew.
  - destruct (exec_add_cases env c db) as [->|(row & Hrows & Hd & Hu)].
    + now apply stamped_later with last.
    + unfold History.stamped. rewrite Hrows. apply Forall_app. split.
      * now apply (stamped_later last).
      * constructor; [|constructor]. rewrite Hd, Hu. simpl. lia.
  - destruct (exec_update_cases env id updates db) as [->|(hit & Hrows)].
    + now apply stamped_later with last.
    + unfold History.stamped in *. rewrite Hrows.
      apply Forall_map. eapply Forall_impl; [|exact Hst].
      intros r [H1 H2]. destruct (hit r); simpl; lia.
Qed.

Lemma run_keeps_birth (ops : list History.Op) (db : Db.t) :
  exists later,
    map History.birth (Db.complaints (History.run ops db))
    = map History.birth (Db.complaints db) ++ later.
Proof.
  unfold History.run. revert db.
  induction ops as [|op ops IH]; intro db; simpl.
  - exists []. now rewrite app_nil_r.
  - destruct (IH (History.exec op db)) as [l2 H2].
    destruct (exec_keeps_birth op db) as [l1 H1].
    exists (l1 ++ l2). rewrite H2, H1.
    now rewrite app_assoc.
Qed.

Lemma run_keeps_stamped (ops : list History.Op) (db : Db.t) (last : Timestamp) :
  History.stamped last db -> History.clocks_ok last ops ->
  exists last', History.stamped last' (History.run ops db).
Proof.
  unfold History.run. revert db last.
  induction ops as [|op ops IH]; intros db last Hst Hok; simpl.
  - now exists last.
  - destruct Hok as (Hmono & Hskew & Hok).
    apply (IH (History.exec op db) (serverNow (History.env_of op))); [|exact Hok].
    now apply exec_keeps_stamped with last.
Qed.

(** C8, as the code has it.  Along every history of submissions and
    updates, from any table: rows are never removed or reordered and each
    keeps the [id], [date_submitted] and [created_at] it was created with;
    and a successful update stamps the target row's [updated_at] with the
    database's time.  From a table in which every row has
    [date_submitted <= updated_at <= last] (the empty table, say), provided
    the database clock never runs backwards from [last] on and the browser's
    clock is not ahead of it at any submission, every row has
    [date_submitted <= updated_at]; the browser's clock at an update plays
    no part. *)
Theorem timestamps_along_histories (ops : list History.Op) (db : Db.t) :
  let db' := History.run ops db in
  (exists later,
      map History.birth (Db.complaints db')
      = map History.birth (Db.complaints db) ++ later)
  /\ (forall env st id updates db2 st2,
         ComplaintContext.updateComplaint env db' st id updates
         = (None, db2, st2) ->
         exists r', In r' (Db.complaints db2)
                    /\ Row.id r' = id
                    /\ Row.updated_at r' = serverNow env)
  /\ (forall last,
         History.stamped last db ->
         History.clocks_ok last ops ->
         Forall (fun r => (Row.date_submitted r <= Row.updated_at r)%Z)
                (Db.complaints db')).
Proof.
  intro db'. split; [apply run_keeps_birth|]. split.
  - intros env st id updates db2 st2 H.
    unfold ComplaintContext.updateComplaint in H.
    destruct (session env); [|discriminate].
    destruct (Supabase.update env db' _ id) as [e|[r' db3]] eqn:Hu;
      [discriminate|].
    inversion H; subst db3. clear H.
    apply update_inr in Hu.
    destruct Hu as (_ & _ & (r0 & Hf & ->) & Hrows & _).
    assert (Hin : In r0 (filter (fun r => Supabase.has_id id r
                                         && Policy.can_update (session env) r)
                                (Db.complaints db')))
      by (rewrite Hf; now left).
    apply filter_In in Hin. destruct Hin as [Hin Hhit].
    eexists. split; [|split].
    + rewrite Hrows. apply in_map_iff. exists r0. split; [|exact Hin].
      rewrite Hhit. reflexivity.
    + simpl. apply andb_true_iff in Hhit. now apply has_id_true.
    + reflexivity.
  - intros last Hst Hok.
    destruct (run_keeps_stamped ops db last Hst Hok) as [last' H].
    eapply Forall_impl; [|exact H]. simpl. now intros r [? _].
Qed.

(** Alice submits, then an admin whose browser clock runs far ahead of the
    database's resolves the request; a later update stamps the row anew. *)
Lemma timestamps_along_histories_witness :
  let db' := History.run Fixture.history_fast_admin Db.empty in
  let later :=
    ComplaintContext.updateComplaint Sample.admin_env_later db' State.initial
                                     "u-1" (Sample.set_priority "high") in
  History.stamped 0%Z Db.empty
  /\ History.clocks_ok 0%Z Fixture.history_fast_admin
  /\ map (fun r => (Row.id r, Row.date_submitted r, Row.updated_at r))
         (Db.complaints db')
     = [("u-1", 400%Z, 500%Z)]
  /\ Forall (fun r => (Row.date_submitted r <= Row.updated_at r)%Z)
            (Db.complaints db')
  /\ exists r', In r' (Db.complaints (snd (fst later)))
                /\ Row.id r' = "u-1"
                /\ Row.updated_at r' = 600%Z.
Proof.
  intros db' later.
  assert (Hst : History.stamped 0%Z Db.empty) by constructor.
  assert (Hok : History.clocks_ok 0%Z Fixture.history_fast_admin)
    by (simpl; repeat split; intro H; discriminate H).
  pose proof (timestamps_along_histories Fixture.history_fast_admin Db.empty)
    as (_ & Hupd & Hord).
  split; [exact Hst|]. split; [exact Hok|]. split; [reflexivity|].
  split; [exact (Hord 0%Z Hst Hok)|].
  exact (Hupd Sample.admin_env_later State.initial "u-1"
              (Sample.set_priority "high") (snd (fst later)) (snd later)
              eq_refl).
Defined.

(** A browser whose clock is ahead of the database's submits a request:
    the stored row is submitted later than it was last updated. *)
Lemma client_clock_ahead_breaks_order :
  exists row st',
    ComplaintContext.addComplaint Sample.skewed_env Db.empty State.initial
                                  Sample.pothole
    = (None, Db.mk [row] [INSERT "u-9"], st')
    /\ Row.date_submitted row = 1000%Z
    /\ Row.updated_at row = 900%Z
    /\ ~ (Row.date_submitted row <= Row.updated_at row)%Z.
Proof.
  eexists _, _. split; [vm_compute; reflexivity|].
  simpl. repeat split. lia.
Qed.

Example history_runs :
  map (fun r => (Row.status r, Row.date_submitted r, Row.updated_at r))
      (Db.complaints (History.run Sample.history Db.empty))
  = [("resolved", 400%Z, 500%Z)].
Proof. reflexivity. Qed.

(** * Further properties of the pages and of the schema *)

(** ** Statistics *)

Lemma filter_length_perm {A} (p : A -> bool) (l l' : list A) :
  Permutation l l' ->
  List.length (filter p l) = List.length (filter p l').
Proof.
  induction 1 as [|x l l' _ IH|x y l|l l' l'' _ IH1 _ IH2]; simpl.
  - reflexivity.
  - destruct (p x); simpl; now rewrite IH.
  - destruct (p x), (p y); reflexivity.
  - now rewrite IH1.
Qed.

Lemma filter_length_map {A B} (f : A -> B) (p : B -> bool) (l : list A) :
  List.length (filter p (map f l))
  = List.length (filter (fun x => p (f x)) l).
Proof.
  induction l as [|x l IH]; simpl; [reflexivity|].
  destruct (p (f x)); simpl; now rewrite IH.
Qed.

(** The four status counters and the rows with any other status add up to
    the number of rows. *)
Lemma status_counts_partition {A} (status : A -> string) (l : list A) :
  List.length l
  = (List.length (filter (fun x => String.eqb (status x) "pending") l)
     + List.length (filter (fun x => String.eqb (status x) "in-progress") l)
     + List.length (filter (fun x => String.eqb (status x) "resolved") l)
     + List.length (filter (fun x => String.eqb (status x) "rejected") l)
     + List.length
         (filter (fun x =>
                    negb (String.eqb (status x) "pending"
                          || String.eqb (status x) "in-progress"
                          || String.eqb (status x) "resolved"
                          || String.eqb (status x) "rejected")) l))%nat.
Proof.
  induction l as [|x l IH]; simpl; [reflexivity|].
  destruct (String.eqb (status x) "pending") eqn:E1;
    destruct (String.eqb (status x) "in-progress") eqn:E2;
    destruct (String.eqb (status x) "resolved") eqn:E3;
    destruct (String.eqb (status x) "rejected") eqn:E4;
    simpl; try lia;
    repeat match goal with
           | H : String.eqb _ _ = true |- _ => apply String.eqb_eq in H
           end;
    congruence.
Qed.

(** X1.  [get_complaint_stats()] counts the rows the caller may select.
    Its four status counters cover only the four listed values: together
    with the visible rows of any other status they add up to the total, so
    they never exceed it and fall short of it exactly when some visible row
    has another status. *)
Theorem get_complaint_stats_partition (s : option User.t) (db : Db.t) :
  let stats := SetupDatabase.get_complaint_stats s db in
  let others :=
    List.length
      (filter (fun r =>
                 negb (String.eqb (Row.status r) "pending"
                       || String.eqb (Row.status r) "in-progress"
                       || String.eqb (Row.status r) "resolved"
                       || String.eqb (Row.status r) "rejected"))
              (filter (Policy.can_select s) (Db.complaints db))) in
  ComplaintStats.total_complaints stats
  = (ComplaintStats.pending_complaints stats
     + ComplaintStats.in_progress_complaints stats
     + ComplaintStats.resolved_complaints stats
     + ComplaintStats.rejected_complaints stats
     + others)%nat
  /\ (ComplaintStats.total_complaints stats <= List.length (Db.complaints db))%nat.
Proof.
  simpl. unfold SetupDatabase.count_status. split.
  - apply (status_counts_partition Row.status).
  - apply filter_length_le.
Qed.

(** ** The local list and the table *)

Lemma can_select_update (s : option User.t) (r : Row.t) :
  Policy.can_update s r = Policy.can_select s r.
Proof. reflexivity. Qed.

(** A refetch brings the local list in line with the table. *)
Lemma fetch_in_sync (env : Env) (db : Db.t) (st : State.t) :
  session env = None \/ online env = true ->
  Projection.in_sync env db (ComplaintContext.fetchComplaints env db st).
Proof.
  intro H. unfold Projection.in_sync, ComplaintContext.fetchComplaints.
  destruct (session env) as [u|] eqn:Hs.
  - destruct H as [H|Hon]; [discriminate|].
    unfold Supabase.select_complaints. rewrite Hon, Hs. simpl.
    apply Permutation_map.
    eapply perm_trans; [apply order_desc_perm|].
    erewrite filter_ext; [apply Permutation_refl|].
    intro r. simpl.
    destruct (ComplaintContext.isAdmin u) eqn:Ha.
    + apply andb_true_r.
    + rewrite can_select_resident by exact Ha. apply andb_diag.
  - simpl. rewrite filter_none; [constructor|]. now intros.
Qed.

Lemma Sorted_map {A B} (R : A -> A -> Prop) (R' : B -> B -> Prop)
      (f : A -> B) (l : list A) :
  (forall a b, R a b -> R' (f a) (f b)) ->
  Sorted R l -> Sorted R' (map f l).
Proof.
  intros HR. induction 1 as [|a l Hs IH Hh]; simpl; constructor.
  - exact IH.
  - destruct Hh; simpl; constructor. now apply HR.
Qed.

Lemma fetch_sorted (env : Env) (db : Db.t) (st : State.t) :
  session env = None \/ online env = true ->
  Sorted (fun a b => (Complaint.dateSubmitted b <= Complaint.dateSubmitted a)%Z)
         (State.complaints (ComplaintContext.fetchComplaints env db st)).
Proof.
  intro H. unfold ComplaintContext.fetchComplaints.
  destruct (session env) as [u|] eqn:Hs; [|constructor].
  destruct H as [H|Hon]; [discriminate|].
  unfold Supabase.select_complaints. rewrite Hon. simpl.
  eapply Sorted_map; [|apply order_desc_sorted]. auto.
Qed.

(** X2.  A refetch replaces the local list wholesale: when the caller has
    no session, or the endpoint answers, the list [fetchComplaints] sets is
    exactly what the caller's SELECT policies show of the table, whatever
    the list held before, and it is ordered newest submission first. *)
Theorem fetchComplaints_refreshes (env : Env) (db : Db.t) (st : State.t) :
  session env = None \/ online env = true ->
  let st' := ComplaintContext.fetchComplaints env db st in
  Projection.in_sync env db st'
  /\ Sorted (fun a b =>
               (Complaint.dateSubmitted b <= Complaint.dateSubmitted a)%Z)
            (State.complaints st')
  /\ State.loading st' = false
  /\ State.toasts st' = State.toasts st.
Proof.
  intros H st'. split; [now apply fetch_in_sync|].
  split; [now apply fetch_sorted|].
  subst st'. unfold ComplaintContext.fetchComplaints.
  destruct (session env) as [u|] eqn:Hs; [|now split].
  destruct H as [H|Hon]; [discriminate|].
  unfold Supabase.select_complaints. rewrite Hon. now split.
Qed.

Lemma fetchComplaints_refreshes_witness :
  let st' := ComplaintContext.fetchComplaints Sample.alice_env Sample.db3
                                              State.initial in
  Projection.in_sync Sample.alice_env Sample.db3 st'
  /\ Sorted (fun a b =>
               (Complaint.dateSubmitted b <= Complaint.dateSubmitted a)%Z)
            (State.complaints st')
  /\ State.loading st' = false
  /\ State.toasts st' = State.toasts State.initial.
Proof.
  apply (fetchComplaints_refreshes Sample.alice_env Sample.db3 State.initial).
  right. reflexivity.
Defined.

Lemma in_sync_stats (env : Env) (db : Db.t) (st : State.t) :
  Projection.in_sync env db st ->
  let panel := AdminPanel.stats (State.complaints st) in
  let sql := SetupDatabase.get_complaint_stats (session env) db in
  Stats.total panel = ComplaintStats.total_complaints sql
  /\ Stats.pending panel = ComplaintStats.pending_complaints sql
  /\ Stats.inProgress panel = ComplaintStats.in_progress_complaints sql
  /\ Stats.resolved panel = ComplaintStats.resolved_complaints sql
  /\ Stats.rejected panel = ComplaintStats.rejected_complaints sql.
Proof.
  unfold Projection.in_sync. intro P. simpl.
  unfold SetupDatabase.count_status.
  split; [|repeat split];
    try (rewrite (filter_length_perm _ _ _ P), filter_length_map; reflexivity).
  rewrite (Permutation_length P). apply length_map.
Qed.

(** X3.  After a refetch (no session, or the endpoint answers) the counters
    the admin panel and the dashboard compute from the local list are the
    ones [get_complaint_stats()] returns to the same caller, and the
    header's pending count is its pending counter. *)
Theorem stats_after_fetch (env : Env) (db : Db.t) (st : State.t) :
  session env = None \/ online env = true ->
  let complaints :=
    State.complaints (ComplaintContext.fetchComplaints env db st) in
  let sql := SetupDatabase.get_complaint_stats (session env) db in
  AdminPanel.stats complaints
  = Stats.mk (ComplaintStats.total_complaints sql)
             (ComplaintStats.pending_complaints sql)
             (ComplaintStats.in_progress_complaints sql)
             (ComplaintStats.resolved_complaints sql)
             (ComplaintStats.rejected_complaints sql)
  /\ UnifiedDashboard.stats complaints = AdminPanel.stats complaints
  /\ App.pendingCount complaints = ComplaintStats.pending_complaints sql.
Proof.
  intros H complaints sql.
  pose proof (in_sync_stats env db _ (fetch_in_sync env db st H))
    as (H1 & H2 & H3 & H4 & H5).
  fold complaints in H1, H2, H3, H4, H5. fold sql in H1, H2, H3, H4, H5.
  split; [|split].
  - rewrite <- H1, <- H2, <- H3, <- H4, <- H5.
    now destruct (AdminPanel.stats complaints).
  - reflexivity.
  - exact H2.
Qed.

Lemma stats_after_fetch_witness :
  let complaints :=
    State.complaints (ComplaintContext.fetchComplaints
                        Sample.admin_env Sample.db3 State.initial) in
  let sql :=
    SetupDatabase.get_complaint_stats (session Sample.admin_env) Sample.db3 in
  AdminPanel.stats complaints
  = Stats.mk (ComplaintStats.total_complaints sql)
             (ComplaintStats.pending_complaints sql)
             (ComplaintStats.in_progress_complaints sql)
             (ComplaintStats.resolved_complaints sql)
             (ComplaintStats.rejected_complaints sql)
  /\ UnifiedDashboard.stats complaints = AdminPanel.stats complaints
  /\ App.pendingCount complaints = ComplaintStats.pending_complaints sql.
Proof.
  apply (stats_after_fetch Sample.admin_env Sample.db3 State.initial).
  right. reflexivity.
Defined.

Lemma can_select_own (u : User.t) (r : Row.t) :
  Row.user_id r = Some (User.id u) -> Policy.can_select (Some u) r = true.
Proof.
  intro H. unfold Policy.can_select, Policy.users_can_view. rewrite H.
  simpl. now rewrite String.eqb_refl.
Qed.

(** X4.  A signed-in caller outside guest mode who submits a complaint
    keeps the local list in line with the table: whether the insert is
    accepted or refused, the list after [addComplaint] is again exactly what
    the caller's SELECT policies show of the table. *)
Theorem addComplaint_keeps_in_sync (env : Env) (db : Db.t) (st : State.t)
        (c : ComplaintData.t) (u : User.t) :
  session env = Some u ->
  ComplaintContext.isGuestMode env = false ->
  Projection.in_sync env db st ->
  let result := ComplaintContext.addComplaint env db st c in
  Projection.in_sync env (snd (fst result)) (snd result).
Proof.
  intros Hs Hg Hsync result. subst result.
  destruct (prepare_signed_in env db c u Hs Hg) as [userName Hp].
  unfold ComplaintContext.addComplaint. rewrite Hp.
  unfold ComplaintContext.commit.
  destruct (Supabase.insert env db _) as [e|[row db']] eqn:Hi; simpl.
  - exact Hsync.
  - apply insert_inr in Hi. destruct Hi as (-> & Hrows & _).
    unfold Projection.in_sync in *. simpl. rewrite Hrows, filter_app.
    simpl. rewrite Hs, can_select_own by reflexivity.
    rewrite map_app. simpl.
    eapply perm_trans; [|apply Permutation_cons_append].
    apply perm_skip. now rewrite <- Hs.
Qed.

Lemma addComplaint_keeps_in_sync_witness :
  let st := ComplaintContext.fetchComplaints Sample.alice_env Sample.db3
                                             State.initial in
  let result :=
    ComplaintContext.addComplaint Sample.alice_env Sample.db3 st
                                  Sample.pothole in
  Projection.in_sync Sample.alice_env (snd (fst result)) (snd result).
Proof.
  apply (addComplaint_keeps_in_sync Sample.alice_env Sample.db3 _
           Sample.pothole Sample.alice eq_refl eq_refl).
  apply fetch_in_sync. right. reflexivity.
Defined.

(** What the local merge makes of a listed complaint is what the table
    makes of its row, for updates that carry persisted members only. *)
Lemma merge_transform (updates : Updates.t) (t : Timestamp) (r : Row.t) :
  Updates.id updates = None ->
  Updates.userId updates = None ->
  Updates.userName updates = None ->
  ComplaintContext.merge (ComplaintContext.transform r) updates
                         (Row.date_submitted r)
  = ComplaintContext.transform
      (Supabase.update_updated_at_column t
         (Supabase.apply_updates (ComplaintContext.dbUpdates updates) r)).
Proof.
  destruct updates; simpl. intros -> -> ->. reflexivity.
Qed.

(** An update whose members are values of persisted columns keeps the
    local list in line with the table, whoever calls it and whether it is
    accepted or refused. *)
Lemma update_keeps_in_sync (env : Env) (db : Db.t) (st : State.t)
        (id : string) (updates : Updates.t) :
  Updates.id updates = None ->
  Updates.userId updates = None ->
  Updates.userName updates = None ->
  Projection.in_sync env db st ->
  let result := ComplaintContext.updateComplaint env db st id updates in
  Projection.in_sync env (snd (fst result)) (snd result).
Proof.
  intros H1 H2 H3 Hsync result. subst result.
  unfold ComplaintContext.updateComplaint.
  destruct (session env) as [u|] eqn:Hs; [|exact Hsync].
  destruct (Supabase.update env db _ id) as [e|[r' db']] eqn:Hu; simpl.
  - exact Hsync.
  - apply update_inr in Hu. cbv zeta in Hu.
    destruct Hu as (_ & _ & (r0 & Hf & ->) & Hrows & _).
    unfold Projection.in_sync in *.
    cbv beta iota delta [fst snd State.complaints].
    rewrite Hrows.
    rewrite filter_map_comm
      by (intro r;
          destruct (Supabase.has_id id r && Policy.can_update (session env) r);
          reflexivity).
    rewrite map_map.
    apply (Permutation_map
             (fun complaint =>
                if String.eqb (Complaint.id complaint) id
                then ComplaintContext.merge complaint updates
                       (Row.date_submitted r0)
                else complaint)) in Hsync.
    rewrite map_map in Hsync.
    eapply perm_trans; [exact Hsync|].
    erewrite map_ext_in; [apply Permutation_refl|].
    intros r Hr. apply filter_In in Hr. destruct Hr as [Hr Hsel].
    change (Complaint.id (ComplaintContext.transform r)) with (Row.id r).
    change (String.eqb (Row.id r) id) with (Supabase.has_id id r).
    rewrite can_select_update, Hsel, andb_true_r.
    destruct (Supabase.has_id id r) eqn:Hid; [|reflexivity].
    assert (Hin : In r (filter (fun r => Supabase.has_id id r
                                         && Policy.can_update (session env) r)
                               (Db.complaints db))).
    { apply filter_In. split; [exact Hr|].
      now rewrite Hid, can_select_update, Hsel. }
    rewrite Hf in Hin. destruct Hin as [<-|[]].
    apply (merge_transform updates (serverNow env) r0 H1 H2 H3).
Qed.

Lemma handleUpdateComplaint_projects (env : Env) (db : Db.t) (st : State.t)
      (id : string) (updates : Updates.t) :
  let result := ComplaintContext.updateComplaint env db st id updates in
  let handled := App.handleUpdateComplaint env db st id updates in
  fst handled = snd (fst result)
  /\ State.complaints (snd handled) = State.complaints (snd result).
Proof.
  unfold App.handleUpdateComplaint.
  destruct (ComplaintContext.updateComplaint env db st id updates)
    as [[[e|] db'] st']; simpl.
  - destruct e; simpl; split; reflexivity.
  - split; reflexivity.
Qed.

Lemma handleUpdateComplaint_keeps_in_sync (env : Env) (db : Db.t)
      (st : State.t) (id : string) (updates : Updates.t) :
  Updates.id updates = None ->
  Updates.userId updates = None ->
  Updates.userName updates = None ->
  Projection.in_sync env db st ->
  Projection.in_sync env
    (fst (App.handleUpdateComplaint env db st id updates))
    (snd (App.handleUpdateComplaint env db st id updates)).
Proof.
  intros H1 H2 H3 Hsync.
  pose proof (update_keeps_in_sync env db st id updates H1 H2 H3 Hsync) as H.
  destruct (handleUpdateComplaint_projects env db st id updates) as [Hd Hc].
  cbv zeta in H, Hd, Hc. unfold Projection.in_sync in *.
  now rewrite Hd, Hc.
Qed.

(** X5.  The admin panel's three update handlers keep the local list in
    line with the table, whoever the caller is and whether the update is
    accepted or refused: each hands [updateComplaint] an object literal with
    one string member ([{ status }], [{ priority }], [{ adminNotes }]), and
    the local merge of such an object yields exactly the complaint of the
    updated row. *)
Theorem panel_updates_keep_in_sync (env : Env) (db : Db.t) (st : State.t)
        (panel : AdminPanel.t) :
  Projection.in_sync env db st ->
  (forall complaintId newStatus,
      let result := AdminPanel.handleStatusUpdate env db st panel
                                                  complaintId newStatus in
      Projection.in_sync env (fst (fst result)) (snd (fst result)))
  /\ (forall complaintId newPriority,
        let result := AdminPanel.handlePriorityUpdate env db st panel
                                                      complaintId newPriority in
        Projection.in_sync env (fst (fst result)) (snd (fst result)))
  /\ (let result := AdminPanel.handleSaveNotes env db st panel in
      Projection.in_sync env (fst (fst result)) (snd (fst result))).
Proof.
  intro Hsync. split; [|split].
  - intros complaintId newStatus result. subst result.
    unfold AdminPanel.handleStatusUpdate.
    pose proof (handleUpdateComplaint_keeps_in_sync env db st complaintId
                  (AdminPanel.status_only newStatus)
                  eq_refl eq_refl eq_refl Hsync) as H.
    destruct (App.handleUpdateComplaint env db st complaintId _)
      as [db' st']. exact H.
  - intros complaintId newPriority result. subst result.
    unfold AdminPanel.handlePriorityUpdate.
    pose proof (handleUpdateComplaint_keeps_in_sync env db st complaintId
                  (AdminPanel.priority_only newPriority)
                  eq_refl eq_refl eq_refl Hsync) as H.
    destruct (App.handleUpdateComplaint env db st complaintId _)
      as [db' st']. exact H.
  - intro result. subst result. unfold AdminPanel.handleSaveNotes.
    destruct (AdminPanel.selectedComplaint panel) as [c|]; [|exact Hsync].
    pose proof (handleUpdateComplaint_keeps_in_sync env db st
                  (Complaint.id c)
                  (AdminPanel.notes_only (AdminPanel.adminNotes panel))
                  eq_refl eq_refl eq_refl Hsync) as H.
    destruct (App.handleUpdateComplaint env db st (Complaint.id c) _)
      as [db' st']. exact H.
Qed.

Lemma panel_updates_keep_in_sync_witness :
  let st := ComplaintContext.fetchComplaints Sample.admin_env Sample.db3
                                             State.initial in
  let result :=
    AdminPanel.handleStatusUpdate Sample.admin_env Sample.db3 st
      AdminPanel.initial "c-2" "resolved" in
  Projection.in_sync Sample.admin_env Sample.db3 st
  /\ map Row.status (Db.complaints (fst (fst result)))
     = ["pending"; "resolved"; "pending"]
  /\ Projection.in_sync Sample.admin_env (fst (fst result))
                        (snd (fst result)).
Proof.
  assert (H : Projection.in_sync Sample.admin_env Sample.db3
                (ComplaintContext.fetchComplaints Sample.admin_env Sample.db3
                                                  State.initial))
    by (apply fetch_in_sync; right; reflexivity).
  split; [exact H|]. split; [reflexivity|].
  exact (proj1 (panel_updates_keep_in_sync Sample.admin_env Sample.db3 _
                  AdminPanel.initial H) "c-2" "resolved").
Defined.

(** ** From the admin's update to the owner's list *)

(** X6.  An admin sets the status of an existing request in the panel; the
    change is published once, and when the owner's subscription then
    refetches, the owner's list shows that request with the new status and
    everything else as it was. *)
Theorem status_update_reaches_owner
        (admin_env owner_env : Env) (db : Db.t) (st st_owner : State.t)
        (panel : AdminPanel.t) (r : Row.t) (a o : User.t) (s : string) :
  session admin_env = Some a -> ComplaintContext.isAdmin a = true ->
  online admin_env = true ->
  session owner_env = Some o -> online owner_env = true ->
  NoDup (map Row.id (Db.complaints db)) ->
  In r (Db.complaints db) ->
  Row.user_id r = Some (User.id o) ->
  let result :=
    AdminPanel.handleStatusUpdate admin_env db st panel (Row.id r) s in
  let db' := fst (fst result) in
  Db.changes db' = Db.changes db ++ [UPDATE (Row.id r)]
  /\ In (AdminPanel.with_status (ComplaintContext.transform r) s)
        (State.complaints
           (Projection.on_postgres_changes owner_env db' st_owner)).
Proof.
  intros Hsa Ha Hona Hso Hono Hnd Hin Hown result db'.
  subst db' result.
  unfold AdminPanel.handleStatusUpdate, App.handleUpdateComplaint,
    ComplaintContext.updateComplaint.
  rewrite Hsa.
  assert (Hhit : forall x, Supabase.has_id (Row.id r) x
                           && Policy.can_update (session admin_env) x
                           = Supabase.has_id (Row.id r) x).
  { intro x. rewrite Hsa, can_update_admin by exact Ha. apply andb_true_r. }
  assert (Hf : filter (fun x => Supabase.has_id (Row.id r) x
                                && Policy.can_update (session admin_env) x)
                      (Db.complaints db) = [r]).
  { rewrite (filter_ext _ _ Hhit). now apply filter_has_id_unique. }
  rewrite (update_single admin_env db
             (ComplaintContext.dbUpdates (AdminPanel.status_only s))
             (Row.id r) r Hona eq_refl Hf).
  cbv beta iota zeta delta [fst snd]. split; [reflexivity|].
  unfold Projection.on_postgres_changes.
  match goal with
  | |- In _ (State.complaints (ComplaintContext.fetchComplaints _ ?d _)) =>
      pose proof (fetch_in_sync owner_env d st_owner (or_intror Hono)) as P
  end.
  unfold Projection.in_sync in P.
  eapply Permutation_in; [apply Permutation_sym; exact P|].
  apply in_map_iff.
  exists (Supabase.update_updated_at_column (serverNow admin_env)
            (Supabase.apply_updates
               (ComplaintContext.dbUpdates (AdminPanel.status_only s)) r)).
  split; [reflexivity|].
  apply filter_In. split.
  - cbv beta iota delta [Db.complaints]. apply in_map_iff. exists r.
    split; [|exact Hin]. now rewrite Hhit, has_id_self.
  - rewrite Hso. now apply can_select_own.
Qed.

Lemma status_update_reaches_owner_witness :
  let result :=
    AdminPanel.handleStatusUpdate Sample.admin_env Sample.db3 State.initial
                                  AdminPanel.initial "c-2" "resolved" in
  let db' := fst (fst result) in
  Db.changes db' = Db.changes Sample.db3 ++ [UPDATE "c-2"]
  /\ In (AdminPanel.with_status (ComplaintContext.transform Sample.row_bob)
                                "resolved")
        (State.complaints
           (Projection.on_postgres_changes Sample.bob_env db' State.initial)).
Proof.
  apply (status_update_reaches_owner Sample.admin_env Sample.bob_env
           Sample.db3 State.initial State.initial AdminPanel.initial
           Sample.row_bob Sample.admin Sample.bob "resolved");
    try reflexivity.
  - repeat constructor; simpl; intuition discriminate.
  - simpl. auto.
Defined.

(** X7.  The panel changes the open complaint before it knows the outcome.
    When the caller has no session or the endpoint does not answer,
    [handleStatusUpdate] on the open complaint leaves the table and the
    list as they were and raises only error toasts, yet the open complaint
    shows the new status. *)
Theorem handleStatusUpdate_optimistic
        (env : Env) (db : Db.t) (st : State.t) (panel : AdminPanel.t)
        (c : Complaint.t) (s : string) :
  AdminPanel.selectedComplaint panel = Some c ->
  session env = None \/ online env = false ->
  let result :=
    AdminPanel.handleStatusUpdate env db st panel (Complaint.id c) s in
  fst (fst result) = db
  /\ State.complaints (snd (fst result)) = State.complaints st
  /\ (exists e errors,
         State.toasts (snd (fst result))
         = State.toasts st ++ map toast_error (e :: errors))
  /\ AdminPanel.selectedComplaint (snd result)
     = Some (AdminPanel.with_status c s).
Proof.
  intros Hsel Hcause result. subst result.
  unfold AdminPanel.handleStatusUpdate, App.handleUpdateComplaint,
    ComplaintContext.updateComplaint.
  rewrite Hsel, String.eqb_refl.
  destruct (session env) as [u|] eqn:Hs.
  - destruct Hcause as [Hcause|Hoff]; [discriminate|].
    unfold Supabase.update. rewrite Hoff. simpl.
    repeat split.
    eexists _, [_]. rewrite <- app_assoc. reflexivity.
  - simpl. repeat split. eexists _, []. reflexivity.
Qed.

Lemma handleStatusUpdate_optimistic_witness :
  let panel :=
    AdminPanel.select (ComplaintContext.transform Sample.row_bob)
                      AdminPanel.initial in
  let result :=
    AdminPanel.handleStatusUpdate
      Fixture.signed_out_env Sample.db3 State.initial
      panel "c-2" "resolved" in
  fst (fst result) = Sample.db3
  /\ State.complaints (snd (fst result)) = State.complaints State.initial
  /\ (exists e errors,
         State.toasts (snd (fst result))
         = State.toasts State.initial ++ map toast_error (e :: errors))
  /\ AdminPanel.selectedComplaint (snd result)
     = Some (AdminPanel.with_status
               (ComplaintContext.transform Sample.row_bob) "resolved").
Proof.
  apply (handleStatusUpdate_optimistic
           Fixture.signed_out_env Sample.db3 State.initial
           (AdminPanel.select (ComplaintContext.transform Sample.row_bob)
                              AdminPanel.initial)
           (ComplaintContext.transform Sample.row_bob) "resolved").
  - reflexivity.
  - left. reflexivity.
Defined.

(** X8.  Opening a request in the panel and saving its notes without
    typing writes the notes back as text.  For an admin and an existing
    request, the request's row afterwards holds the former notes, or the
    empty string where it had none: [admin_notes] is no longer NULL, and no
    other column but [updated_at] differs. *)
Theorem saving_notes_as_opened (env : Env) (db : Db.t) (st : State.t)
        (r : Row.t) (a : User.t) :
  session env = Some a -> ComplaintContext.isAdmin a = true ->
  online env = true ->
  NoDup (map Row.id (Db.complaints db)) ->
  In r (Db.complaints db) ->
  let panel :=
    AdminPanel.select (ComplaintContext.transform r) AdminPanel.initial in
  let result := AdminPanel.handleSaveNotes env db st panel in
  let text := match Row.admin_notes r with
              | Some notes => notes
              | None => EmptyString
              end in
  Db.complaints (fst (fst result))
  = map (fun x =>
           if Supabase.has_id (Row.id r) x
           then Row.mk (Row.id x) (Row.title x) (Row.description x)
                       (Row.category x) (Row.location x) (Row.photo x)
                       (Row.contact_info x) (Row.status x) (Row.priority x)
                       (Row.date_submitted x) (Some text) (Row.respondent x)
                       (Row.user_id x) (Row.user_name x) (Row.created_at x)
                       (serverNow env)
           else x)
        (Db.complaints db).
Proof.
  intros Hs Ha Hon Hnd Hin panel result text. subst result panel.
  assert (Htext : AdminPanel.adminNotes
                    (AdminPanel.select (ComplaintContext.transform r)
                                       AdminPanel.initial) = text).
  { subst text. simpl. now destruct (Row.admin_notes r) as [[|]|]. }
  unfold AdminPanel.handleSaveNotes.
  change (AdminPanel.selectedComplaint
            (AdminPanel.select (ComplaintContext.transform r)
                               AdminPanel.initial))
    with (Some (ComplaintContext.transform r)).
  cbv beta iota. rewrite Htext.
  change (Complaint.id (ComplaintContext.transform r)) with (Row.id r).
  unfold App.handleUpdateComplaint, ComplaintContext.updateComplaint.
  rewrite Hs.
  assert (Hhit : forall x, Supabase.has_id (Row.id r) x
                           && Policy.can_update (session env) x
                           = Supabase.has_id (Row.id r) x).
  { intro x. rewrite Hs, can_update_admin by exact Ha. apply andb_true_r. }
  assert (Hf : filter (fun x => Supabase.has_id (Row.id r) x
                                && Policy.can_update (session env) x)
                      (Db.complaints db) = [r]).
  { rewrite (filter_ext _ _ Hhit). now apply filter_has_id_unique. }
  rewrite (update_single env db
             (ComplaintContext.dbUpdates (AdminPanel.notes_only text))
             (Row.id r) r Hon eq_refl Hf).
  cbv beta iota zeta delta [fst snd Db.complaints].
  apply map_ext. intro x. now rewrite Hhit.
Qed.

Lemma saving_notes_as_opened_witness :
  let panel :=
    AdminPanel.select (ComplaintContext.transform Sample.row_bob)
                      AdminPanel.initial in
  let result :=
    AdminPanel.handleSaveNotes Sample.admin_env Sample.db3 State.initial
                               panel in
  map Row.admin_notes (Db.complaints Sample.db3) = [None; None; None]
  /\ map Row.admin_notes (Db.complaints (fst (fst result)))
     = [None; Some EmptyString; None].
Proof.
  split; [reflexivity|].
  cbv zeta.
  rewrite (saving_notes_as_opened Sample.admin_env Sample.db3 State.initial
             Sample.row_bob Sample.admin eq_refl eq_refl eq_refl).
  - reflexivity.
  - repeat constructor; simpl; intuition discriminate.
  - simpl. auto.
Defined.

(** ** What histories of submissions and updates keep *)

Lemma evolves_refl (r : Row.t) : Projection.evolves r r.
Proof. unfold Projection.evolves. auto. Qed.

Lemma evolves_trans (r1 r2 r3 : Row.t) :
  Projection.evolves r1 r2 -> Projection.evolves r2 r3 ->
  Projection.evolves r1 r3.
Proof.
  unfold Projection.evolves. intros (A1 & B1 & C1 & D1) (A2 & B2 & C2 & D2).
  repeat split; auto. now rewrite A2.
Qed.

Lemma evolves_written (p : Supabase.DbUpdates.t) (t : Timestamp) (r : Row.t) :
  Projection.evolves r
    (Supabase.update_updated_at_column t (Supabase.apply_updates p r)).
Proof.
  unfold Projection.evolves. simpl. split; [reflexivity|].
  repeat split; intro H.
  - now destruct (Supabase.DbUpdates.photo p).
  - now destruct (Supabase.DbUpdates.admin_notes p).
  - now destruct (Supabase.DbUpdates.respondent p).
Qed.

Lemma Forall2_refl_on {A} (R : A -> A -> Prop) (l : list A) :
  (forall x, R x x) -> Forall2 R l l.
Proof. intro H. induction l; constructor; auto. Qed.

Lemma Forall2_trans_on {A} (R : A -> A -> Prop) (l1 l2 l3 : list A) :
  (forall x y z, R x y -> R y z -> R x z) ->
  Forall2 R l1 l2 -> Forall2 R l2 l3 -> Forall2 R l1 l3.
Proof.
  intros HR H12. revert l3.
  induction H12 as [|x y l1 l2 Hxy _ IH]; intros l3 H23;
    inversion H23; subst; constructor; eauto.
Qed.

Lemma Forall2_map_r_on {A} (R : A -> A -> Prop) (f : A -> A) (l : list A) :
  (forall x, R x (f x)) -> Forall2 R l (map f l).
Proof. intro H. induction l; simpl; constructor; auto. Qed.

Lemma exec_evolves (op : History.Op) (db : Db.t) :
  exists kept later,
    Db.complaints (History.exec op db) = kept ++ later
    /\ Forall2 Projection.evolves (Db.complaints db) kept.
Proof.
  destruct op as [env c|env id updates].
  - destruct (exec_add_cases env c db) as [->|(row & -> & _)].
    + exists (Db.complaints db), []. rewrite app_nil_r.
      split; [reflexivity | apply Forall2_refl_on, evolves_refl].
    + exists (Db.complaints db), [row].
      split; [reflexivity | apply Forall2_refl_on, evolves_refl].
  - destruct (exec_update_cases env id updates db) as [->|(hit & ->)].
    + exists (Db.complaints db), []. rewrite app_nil_r.
      split; [reflexivity | apply Forall2_refl_on, evolves_refl].
    + eexists _, []. rewrite app_nil_r. split; [reflexivity|].
      apply Forall2_map_r_on. intro r.
      destruct (hit r); [apply evolves_written | apply evolves_refl].
Qed.

(** X9.  Along every history of submissions and updates, rows stay where
    they are and each keeps its [id], its owner [user_id] and its submitter
    name [user_name]; and an optional column ([photo], [admin_notes],
    [respondent]) that holds a value is never set back to NULL.  No call of
    the context transfers, renames or removes a request. *)
Theorem rows_evolve_along_histories (ops : list History.Op) (db : Db.t) :
  exists kept later,
    Db.complaints (History.run ops db) = kept ++ later
    /\ Forall2 Projection.evolves (Db.complaints db) kept.
Proof.
  unfold History.run. revert db.
  induction ops as [|op ops IH]; intro db; simpl.
  - exists (Db.complaints db), []. rewrite app_nil_r.
    split; [reflexivity | apply Forall2_refl_on, evolves_refl].
  - destruct (exec_evolves op db) as (k1 & l1 & E1 & F1).
    destruct (IH (History.exec op db)) as (k2 & l2 & E2 & F2).
    rewrite E1 in F2. apply Forall2_app_inv_l in F2.
    destruct F2 as (a1 & a2 & Fa1 & Fa2 & ->).
    exists a1, (a2 ++ l2). split.
    + now rewrite E2, app_assoc.
    + eapply Forall2_trans_on; [apply evolves_trans | exact F1 | exact Fa1].
Qed.

Lemma or_else_name_nonempty (a b : option string) :
  match JS.or_else (JS.or_else a b) (Some "Unknown User") with
  | Some s => s
  | None => "Unknown User"
  end <> EmptyString.
Proof.
  unfold JS.or_else.
  destruct a as [[|c a]|]; destruct b as [[|d b]|]; simpl; discriminate.
Qed.

Lemma anonymousName_nonempty (n : N) :
  ComplaintContext.anonymousName n <> EmptyString.
Proof. discriminate. Qed.

Lemma anonymousName_like (n : N) :
  JS.like_Anonymous (ComplaintContext.anonymousName n) = true.
Proof.
  unfold JS.like_Anonymous, ComplaintContext.anonymousName. simpl.
  now destruct (JS.padStart 3 (JS.toString n)).
Qed.

Lemma prepare_names (env : Env) (db : Db.t) (c : ComplaintData.t)
      (d : Supabase.DbComplaint.t) :
  ComplaintContext.prepare env db c = inr d ->
  exists name,
    Supabase.DbComplaint.user_name d = Some name
    /\ name <> EmptyString
    /\ (Supabase.DbComplaint.user_id d = None ->
        JS.like_Anonymous name = true).
Proof.
  unfold ComplaintContext.prepare. intro H.
  destruct (Supabase.is_null (session env)
            && negb (ComplaintContext.isGuestMode env)); [discriminate|].
  destruct (ComplaintContext.isGuestMode env).
  - inversion H; subst; simpl. eexists. split; [reflexivity|].
    split; [apply anonymousName_nonempty | intros _; apply anonymousName_like].
  - destruct (session env) as [u|]; [|discriminate].
    inversion H; subst; simpl. eexists. split; [reflexivity|].
    split; [apply or_else_name_nonempty | discriminate].
Qed.

Lemma exec_keeps_named (op : History.Op) (db : Db.t) :
  Projection.named db -> Projection.named (History.exec op db).
Proof.
  unfold Projection.named. intro Hn.
  destruct op as [env c|env id updates].
  - simpl. unfold ComplaintContext.addComplaint.
    destruct (ComplaintContext.prepare env db c) as [e|d] eqn:Hp;
      [exact Hn|].
    unfold ComplaintContext.commit.
    destruct (Supabase.insert env db d) as [e|[row db']] eqn:Hi;
      [exact Hn|].
    apply insert_inr in Hi. destruct Hi as (-> & Hrows & _).
    simpl. rewrite Hrows. apply Forall_app. split; [exact Hn|].
    constructor; [|constructor]. simpl. now apply (prepare_names env db c).
  - destruct (exec_update_cases env id updates db) as [->|(hit & ->)];
      [exact Hn|].
    apply Forall_map. eapply Forall_impl; [|exact Hn].
    intros r H. now destruct (hit r).
Qed.

(** X10.  Every stored request names its submitter.  If every row of the
    table has a non-empty [user_name], and every row without owner a name
    that begins with "Anonymous", then so has every row after any history
    of submissions and updates: a signed-in submission is stored under the
    profile name, else the e-mail address, else "Unknown User", a
    guest-mode submission under "Anonymous" followed by its number, and no
    update touches the name.  The statement does not depend on how the
    number is written. *)
Theorem submitter_names_along_histories (ops : list History.Op) (db : Db.t) :
  Projection.named db -> Projection.named (History.run ops db).
Proof.
  unfold History.run. revert db.
  induction ops as [|op ops IH]; intros db H; simpl; [exact H|].
  apply IH. now apply exec_keeps_named.
Qed.

Lemma submitter_names_along_histories_witness :
  Projection.named Sample.db3
  /\ map (fun r => (Row.user_id r, Row.user_name r))
         (Db.complaints (History.run Fixture.history_with_guest Sample.db3))
     = [(Some "a11ce", Some "Alice"); (Some "b0b", Some "bob@example.com");
        (None, Some "Anonymous001"); (None, Some "Anonymous002");
        (Some "a11ce", Some "Alice")]
  /\ Projection.named (History.run Fixture.history_with_guest Sample.db3).
Proof.
  assert (H : Projection.named Sample.db3).
  { repeat constructor; eexists; (split; [reflexivity|]);
      (split; [discriminate|]); intro; try reflexivity; discriminate. }
  split; [exact H|]. split; [reflexivity|].
  exact (submitter_names_along_histories Fixture.history_with_guest
           Sample.db3 H).
Defined.

Lemma insert_inr_fresh (env : Env) (db : Db.t) (d : Supabase.DbComplaint.t)
      (r : Row.t) (db' : Db.t) :
  Supabase.insert env db d = inr (r, db') ->
  ~ In (Row.id r) (map Row.id (Db.complaints db)).
Proof.
  unfold Supabase.insert. intro H.
  destruct (negb (online env)); [discriminate|].
  destruct (negb (Policy.can_insert _ _)); [discriminate|].
  destruct (returning_needs_select env && _); [discriminate|].
  destruct (existsb _ _) eqn:E; [discriminate|].
  inversion H; subst. intro Hin.
  apply in_map_iff in Hin. destruct Hin as (x & Hx & Hin).
  assert (Hex : existsb (Supabase.has_id (Row.id (Supabase.new_row env d)))
                        (Db.complaints db) = true).
  { apply existsb_exists. exists x. split; [exact Hin|].
    now apply has_id_true. }
  congruence.
Qed.

Lemma exec_keeps_ids_distinct (op : History.Op) (db : Db.t) :
  NoDup (map Row.id (Db.complaints db)) ->
  NoDup (map Row.id (Db.complaints (History.exec op db))).
Proof.
  intro Hnd. destruct op as [env c|env id updates].
  - simpl. unfold ComplaintContext.addComplaint.
    destruct (ComplaintContext.prepare env db c) as [e|d]; [exact Hnd|].
    unfold ComplaintContext.commit.
    destruct (Supabase.insert env db d) as [e|[row db']] eqn:Hi;
      [exact Hnd|].
    pose proof (insert_inr_fresh _ _ _ _ _ Hi) as Hfresh.
    apply insert_inr in Hi. destruct Hi as (_ & Hrows & _).
    simpl. rewrite Hrows, map_app. simpl.
    eapply Permutation_NoDup; [apply Permutation_cons_append|].
    now constructor.
  - destruct (exec_update_cases env id updates db) as [->|(hit & ->)];
      [exact Hnd|].
    rewrite map_map. erewrite map_ext; [exact Hnd|].
    intro r. now destruct (hit r).
Qed.

(** X11.  The primary key holds along histories: if the ids of the table
    are pairwise distinct, they are after any history of submissions and
    updates.  An insert whose drawn id is already taken is refused, and no
    update changes an id. *)
Theorem ids_distinct_along_histories (ops : list History.Op) (db : Db.t) :
  NoDup (map Row.id (Db.complaints db)) ->
  NoDup (map Row.id (Db.complaints (History.run ops db))).
Proof.
  unfold History.run. revert db.
  induction ops as [|op ops IH]; intros db H; simpl; [exact H|].
  apply IH. now apply exec_keeps_ids_distinct.
Qed.

Lemma ids_distinct_along_histories_witness :
  NoDup (map Row.id (Db.complaints (History.run Sample.history Sample.db3))).
Proof.
  apply ids_distinct_along_histories.
  repeat constructor; simpl; intuition discriminate.
Defined.

(** ** Guest names *)

(** X12.  Guest names round-trip.  For a number in the safe-integer range,
    the pattern of [addComplaint] finds the digits of the name generated
    for it and [parseInt] reads the number back; names of different numbers
    differ; the name has nine letters and as many digits as the number
    needs, at least three; and a caller whose last-guest query returns that
    name gets the successor as next number. *)
Theorem anonymous_name_round_trip (n : N) :
  (n < 2 ^ 53)%N ->
  JS.regex_match (ComplaintContext.anonymousName n)
  = Some (JS.padStart 3 (JS.toString n))
  /\ JS.parseInt (JS.padStart 3 (JS.toString n)) = n
  /\ String.length (ComplaintContext.anonymousName n)
     = (9 + Nat.max 3 (String.length (JS.toString n)))%nat
  /\ (forall m, (m < 2 ^ 53)%N ->
                ComplaintContext.anonymousName m
                = ComplaintContext.anonymousName n -> m = n)
  /\ (forall env db,
         Supabase.select_last_guest env db
         = inr (Some (ComplaintContext.anonymousName n)) ->
         ComplaintContext.nextNumber env db = (n + 1)%N).
Proof.
  intros _. split; [apply regex_match_anonymousName|].
  split; [apply parseInt_padded|]. split; [|split].
  - unfold ComplaintContext.anonymousName.
    rewrite length_append, length_padStart. reflexivity.
  - intros m _. apply anonymousName_injective.
  - intros env db. apply nextNumber_after.
Qed.

Lemma anonymous_name_round_trip_witness :
  JS.regex_match (ComplaintContext.anonymousName 1000) = Some "1000"
  /\ JS.parseInt "1000" = 1000%N
  /\ String.length (ComplaintContext.anonymousName 1000) = 13%nat
  /\ (forall m, (m < 2 ^ 53)%N ->
                ComplaintContext.anonymousName m
                = ComplaintContext.anonymousName 1000 -> m = 1000%N)
  /\ (forall env db,
         Supabase.select_last_guest env db
         = inr (Some (ComplaintContext.anonymousName 1000)) ->
         ComplaintContext.nextNumber env db = 1001%N).
Proof.
  apply (anonymous_name_round_trip 1000). reflexivity.
Defined.

(** ** Submitting through the form *)

(** X13.  A signed-in caller outside guest mode submits the form while the
    endpoint answers and the drawn id is free: the request is stored as the
    caller's own, with status "pending" and priority "high" exactly for the
    category "emergency" and "medium" otherwise; the page changes to the
    dashboard, the form is blank again, and two success toasts are
    raised. *)
Theorem form_submission_is_stored (env : Env) (db : Db.t) (st : State.t)
        (app : App.t) (form : ComplaintForm.t) (u : User.t) :
  session env = Some u ->
  ComplaintContext.isGuestMode env = false ->
  online env = true ->
  existsb (Supabase.has_id (gen_random_uuid env)) (Db.complaints db) = false ->
  exists row,
    App.submitForm env db st app form
    = (Db.mk (Db.complaints db ++ [row])
             (Db.changes db ++ [INSERT (gen_random_uuid env)]),
       State.mk (ComplaintContext.transform row :: State.complaints st)
                (State.loading st)
                (State.toasts st
                 ++ [toast_success "Complaint submitted successfully";
                     toast_success
                       "Request submitted successfully! We will review it shortly."]),
       App.mk "dashboard",
       ComplaintForm.blank)
    /\ Row.user_id row = Some (User.id u)
    /\ Row.status row = "pending"
    /\ Row.priority row
       = (if String.eqb (ComplaintForm.category form) "emergency"
          then "high" else "medium")
    /\ Row.title row = ComplaintForm.title form
    /\ Row.date_submitted row = clientNow env.
Proof.
  intros Hs Hg Hon Hfresh.
  destruct (addComplaint_signed_in env db st
              (fst (ComplaintForm.handleSubmit form)) u Hs Hg Hon Hfresh)
    as [userName H].
  cbv zeta in H. eexists.
  unfold App.submitForm, App.handleSubmitComplaint.
  cbv beta iota zeta delta [ComplaintForm.handleSubmit].
  cbv beta iota zeta delta [ComplaintForm.handleSubmit fst] in H.
  rewrite H. cbv beta iota.
  cbn [State.toasts State.complaints State.loading JS.truthy].
  split; [rewrite <- app_assoc; reflexivity|].
  repeat split.
Qed.

Lemma form_submission_is_stored_witness :
  exists row,
    App.submitForm Sample.alice_env Sample.db3 State.initial App.initial
                   Fixture.emergency_form
    = (Db.mk (Db.complaints Sample.db3 ++ [row])
             (Db.changes Sample.db3 ++ [INSERT "u-1"]),
       State.mk [ComplaintContext.transform row] true
                [toast_success "Complaint submitted successfully";
                 toast_success
                   "Request submitted successfully! We will review it shortly."],
       App.mk "dashboard",
       ComplaintForm.blank)
    /\ Row.user_id row = Some "a11ce"
    /\ Row.status row = "pending"
    /\ Row.priority row = "high"
    /\ Row.title row = "Fire"
    /\ Row.date_submitted row = clientNow Sample.alice_env.
Proof.
  exact (form_submission_is_stored Sample.alice_env Sample.db3 State.initial
           App.initial Fixture.emergency_form Sample.alice
           eq_refl eq_refl eq_refl eq_refl).
Defined.

(** X14.  The form is cleared before the outcome is known.  When the
    caller has neither a session nor the guest flag, or the endpoint does
    not answer, submitting the form stores nothing, leaves the list and the
    page as they were and raises an error toast, and the form comes back
    blank: what was typed is gone. *)
Theorem failed_submission_clears_form (env : Env) (db : Db.t) (st : State.t)
        (app : App.t) (form : ComplaintForm.t) :
  (session env = None /\ ComplaintContext.isGuestMode env = false)
  \/ online env = false ->
  let result := App.submitForm env db st app form in
  fst (fst (fst result)) = db
  /\ State.complaints (snd (fst (fst result))) = State.complaints st
  /\ (exists e errors,
         State.toasts (snd (fst (fst result)))
         = State.toasts st ++ map toast_error (e :: errors))
  /\ snd (fst result) = app
  /\ snd result = ComplaintForm.blank.
Proof.
  intros Hcause result. subst result.
  unfold App.submitForm, App.handleSubmitComplaint.
  cbv beta iota zeta delta [ComplaintForm.handleSubmit].
  unfold ComplaintContext.addComplaint.
  destruct (ComplaintContext.prepare env db _) as [e|d] eqn:Hp.
  - assert (He : JS.truthy (Some e) = true).
    { unfold ComplaintContext.prepare in Hp.
      destruct (Supabase.is_null (session env)
                && negb (ComplaintContext.isGuestMode env)).
      - now inversion Hp.
      - destruct (ComplaintContext.isGuestMode env); [discriminate|].
        destruct (session env); [discriminate | now inversion Hp]. }
    cbv beta iota. rewrite He. simpl. repeat split.
    eexists _, []. reflexivity.
  - destruct Hcause as [[Hs Hg]|Hoff].
    + unfold ComplaintContext.prepare in Hp. rewrite Hs, Hg in Hp.
      discriminate.
    + unfold ComplaintContext.commit, Supabase.insert. rewrite Hoff.
      simpl. repeat split. eexists _, [_]. rewrite <- app_assoc.
      reflexivity.
Qed.

Lemma failed_submission_clears_form_witness :
  let result :=
    App.submitForm Fixture.offline_env Sample.db3 State.initial
                   (App.mk "submit") Fixture.emergency_form in
  fst (fst (fst result)) = Sample.db3
  /\ State.complaints (snd (fst (fst result)))
     = State.complaints State.initial
  /\ (exists e errors,
         State.toasts (snd (fst (fst result)))
         = State.toasts State.initial ++ map toast_error (e :: errors))
  /\ snd (fst result) = App.mk "submit"
  /\ snd result = ComplaintForm.blank.
Proof.
  apply (failed_submission_clears_form Fixture.offline_env Sample.db3
           State.initial (App.mk "submit") Fixture.emergency_form).
  right. reflexivity.
Defined.

(** ** Pages by role *)

Lemma handleSubmitComplaint_view (env : Env) (db : Db.t) (st : State.t)
      (app : App.t) (c : ComplaintData.t) :
  snd (App.handleSubmitComplaint env db st app c) = app
  \/ snd (App.handleSubmitComplaint env db st app c) = App.mk "dashboard".
Proof.
  unfold App.handleSubmitComplaint.
  destruct (ComplaintContext.addComplaint env db st c) as [[[e|] db'] st'].
  - destruct (JS.truthy (Some e)); simpl; auto.
  - simpl. auto.
Qed.

Lemma step_keeps_view (isAdmin : bool) (app : App.t) (ev : Navigation.Event) :
  Navigation.rendered_for isAdmin ev ->
  In (App.currentView app)
     (if isAdmin
      then ["dashboard"; "admin"; "analytics"; "users"; "profile"; "settings"]
      else ["dashboard"; "submit"; "profile"; "settings"]) ->
  In (App.currentView (Navigation.step app ev))
     (if isAdmin
      then ["dashboard"; "admin"; "analytics"; "users"; "profile"; "settings"]
      else ["dashboard"; "submit"; "profile"; "settings"]).
Proof.
  intros Hr H. destruct ev as [b view|c env db st];
    cbv beta iota delta [Navigation.step].
  - simpl in Hr. subst b.
    destruct (existsb (String.eqb view) (Header.targets isAdmin)) eqn:E;
      [|exact H].
    apply existsb_exists in E. destruct E as (x & Hx & Heq).
    apply String.eqb_eq in Heq. subst x. simpl.
    destruct isAdmin; simpl in Hx |- *; intuition.
  - destruct (handleSubmitComplaint_view env db st app c) as [-> | ->];
      [exact H|].
    destruct isAdmin; simpl; auto.
Qed.

(** X15.  The header alone decides which pages a caller can reach.  From
    the dashboard, whatever buttons are clicked and whatever is submitted:
    as long as the header was rendered for a caller who is not an admin at
    every click, the page shown is the dashboard, the form, the profile or
    the settings page; as long as it was rendered for an admin at every
    click, the page shown is never the form.  [AppContent] checks no role
    when it picks the page, and [currentView] outlives a change of role:
    after an admin has opened the admin panel, a caller whose header has no
    admin buttons is still shown the admin panel. *)
Theorem pages_by_role :
  (forall (isAdmin : bool) (events : list Navigation.Event),
      Forall (Navigation.rendered_for isAdmin) events ->
      let view := App.currentView (Navigation.run events App.initial) in
      if isAdmin
      then In (App.page view)
              [Some App.UnifiedDashboard; Some App.AdminPanel;
               Some App.DataAnalytics; Some App.UserManagement;
               Some App.ProfileManagement; Some App.ResidentSettings]
      else In (App.page view)
              [Some App.UnifiedDashboard; Some App.ComplaintForm;
               Some App.ProfileManagement; Some App.ResidentSettings])
  /\ (existsb (String.eqb "admin") (Header.targets false) = false
      /\ App.page (App.currentView
                     (Navigation.run Fixture.admin_then_resident App.initial))
         = Some App.AdminPanel).
Proof.
  split; [|split; reflexivity].
  intros isAdmin events Hr view.
  assert (H : In view
                 (if isAdmin
                  then ["dashboard"; "admin"; "analytics"; "users";
                        "profile"; "settings"]
                  else ["dashboard"; "submit"; "profile"; "settings"])).
  { subst view. unfold Navigation.run.
    assert (H0 : In (App.currentView App.initial)
                    (if isAdmin
                     then ["dashboard"; "admin"; "analytics"; "users";
                           "profile"; "settings"]
                     else ["dashboard"; "submit"; "profile"; "settings"]))
      by (destruct isAdmin; simpl; auto).
    revert H0. generalize App.initial.
    induction Hr as [|ev events Hev _ IH]; intros app H0; simpl; [exact H0|].
    apply IH. now apply step_keeps_view. }
  destruct isAdmin; simpl in H;
    repeat (destruct H as [<-|H]; [simpl; auto 10|]); contradiction.
Qed.

Lemma pages_by_role_witness :
  Forall (Navigation.rendered_for false) Fixture.resident_clicks
  /\ App.currentView (Navigation.run Fixture.resident_clicks App.initial)
     = "settings"
  /\ In (App.page (App.currentView
                     (Navigation.run Fixture.resident_clicks App.initial)))
        [Some App.UnifiedDashboard; Some App.ComplaintForm;
         Some App.ProfileManagement; Some App.ResidentSettings].
Proof.
  assert (H : Forall (Navigation.rendered_for false) Fixture.resident_clicks)
    by (repeat constructor).
  split; [exact H|]. split; [reflexivity|].
  exact (proj1 pages_by_role false Fixture.resident_clicks H).
Defined.

(** ** The settings page *)

(** X16.  On the settings page the "unsaved changes" flag is off exactly
    when nothing has happened yet or the last action was a save; a reset is
    itself an unsaved change.  Saving stores nothing and changes no
    setting, so after a reset followed only by saves all three settings
    objects hold their defaults. *)
Theorem settings_flag_and_reset (events : list ResidentSettings.Event)
        (s : ResidentSettings.t) :
  ResidentSettings.unsavedChanges (ResidentSettings.run events s)
  = match rev events with
    | [] => ResidentSettings.unsavedChanges s
    | ev :: _ => negb (ResidentSettings.is_save ev)
    end
  /\ (forall saves,
         forallb ResidentSettings.is_save saves = true ->
         let s' :=
           ResidentSettings.run
             (events ++ ResidentSettings.ResetSettings :: saves) s in
         ResidentSettings.notifications s'
         = ResidentSettings.default_notifications
         /\ ResidentSettings.preferences s'
            = ResidentSettings.default_preferences
         /\ ResidentSettings.privacy s' = ResidentSettings.default_privacy).
Proof.
  split.
  - induction events as [|ev events IH] using rev_ind; [reflexivity|].
    unfold ResidentSettings.run. rewrite fold_left_app, rev_unit. simpl.
    now destruct ev.
  - intros saves Hsaves s'. subst s'. unfold ResidentSettings.run.
    rewrite fold_left_app. simpl.
    generalize (fold_left ResidentSettings.step events s). intro s0.
    assert (G : forall s1,
               ResidentSettings.notifications
                 (fold_left ResidentSettings.step saves s1)
               = ResidentSettings.notifications s1
               /\ ResidentSettings.preferences
                    (fold_left ResidentSettings.step saves s1)
                  = ResidentSettings.preferences s1
               /\ ResidentSettings.privacy
                    (fold_left ResidentSettings.step saves s1)
                  = ResidentSettings.privacy s1).
    { induction saves as [|ev saves IH]; intro s1; [simpl; auto|].
      cbn [fold_left].
      simpl in Hsaves. apply andb_true_iff in Hsaves.
      destruct Hsaves as [Hev Hrest].
      destruct ev; try discriminate.
      destruct (IH Hrest
                   (ResidentSettings.step s1 ResidentSettings.SaveSettings))
        as (A & B & C).
      rewrite A, B, C. simpl. auto. }
    apply (G (ResidentSettings.resetSettings s0)).
Qed.

Lemma settings_flag_and_reset_witness :
  let events :=
    [ResidentSettings.NotificationChange "sms" true;
     ResidentSettings.SaveSettings] in
  ResidentSettings.unsavedChanges
    (ResidentSettings.run events ResidentSettings.initial) = false
  /\ (forall saves,
         forallb ResidentSettings.is_save saves = true ->
         let s' :=
           ResidentSettings.run
             (events ++ ResidentSettings.ResetSettings :: saves)
             ResidentSettings.initial in
         ResidentSettings.notifications s'
         = ResidentSettings.default_notifications
         /\ ResidentSettings.preferences s'
            = ResidentSettings.default_preferences
         /\ ResidentSettings.privacy s' = ResidentSettings.default_privacy).
Proof.
  exact (settings_flag_and_reset
           [ResidentSettings.NotificationChange "sms" true;
            ResidentSettings.SaveSettings]
           ResidentSettings.initial).
Defined.

(** ** The dashboard's category list *)

Lemma distinct_spec (seen xs : list string) :
  NoDup (UnifiedDashboard.distinct seen xs)
  /\ forall x, In x (UnifiedDashboard.distinct seen xs)
               <-> In x xs /\ ~ In x seen.
Proof.
  revert seen. induction xs as [|y xs IH]; intro seen; simpl.
  - split; [constructor | intuition].
  - destruct (existsb (String.eqb y) seen) eqn:E.
    + apply existsb_exists in E. destruct E as (z & Hz & Hyz).
      apply String.eqb_eq in Hyz. subst z.
      destruct (IH seen) as [Hnd Hin]. split; [exact Hnd|].
      intro x. rewrite Hin. intuition. subst. contradiction.
    + assert (Hy : ~ In y seen).
      { intro Hy. apply Bool.not_true_iff_false in E. apply E.
        apply existsb_exists. exists y. split; [exact Hy|].
        apply String.eqb_refl. }
      destruct (IH (y :: seen)) as [Hnd Hin]. split.
      * constructor; [|exact Hnd]. rewrite Hin. simpl. intuition.
      * intro x. simpl. rewrite Hin. simpl.
        destruct (String.eqb y x) eqn:Eyx.
        -- apply String.eqb_eq in Eyx. subst x. intuition.
        -- apply String.eqb_neq in Eyx. intuition.
Qed.

(** X17.  The dashboard's category filter lists each category that occurs
    among the complaints exactly once, and nothing else. *)
Theorem categories_distinct (complaints : list Complaint.t) :
  NoDup (UnifiedDashboard.categories complaints)
  /\ forall x,
       In x (UnifiedDashboard.categories complaints)
       <-> exists c, In c complaints /\ Complaint.category c = x.
Proof.
  unfold UnifiedDashboard.categories.
  destruct (distinct_spec [] (map Complaint.category complaints))
    as [Hnd Hin].
  split; [exact Hnd|]. intro x. rewrite Hin, in_map_iff. simpl.
  split.
  - intros [(c & Hc & Hi) _]. eauto.
  - intros (c & Hi & Hc). split; [eauto | tauto].
Qed.

(** ** The migration from localStorage *)

Lemma or_text_nonempty (a : option string) (b : string) :
  b <> EmptyString -> Migration.or_text a b <> EmptyString.
Proof.
  intro Hb. unfold Migration.or_text, JS.or_else.
  destruct a as [[|c a]|]; simpl; try exact Hb. discriminate.
Qed.

Lemma dbComplaints_rows (u : User.t) (now : Timestamp)
      (items : list (option Migration.Stored.t))
      (rows : list Migration.DbRow.t) :
  Migration.dbComplaints u now items = Some rows ->
  List.length rows = List.length items
  /\ Forall (fun row => Migration.DbRow.priority row <> EmptyString
                        /\ Migration.DbRow.user_name row <> EmptyString)
            rows.
Proof.
  revert rows. induction items as [|[c|] items IH]; intros rows H; simpl in H.
  - inversion H. split; [reflexivity | constructor].
  - destruct (Migration.dbComplaints u now items) as [rest|];
      [|discriminate].
    inversion H; subst. destruct (IH rest eq_refl) as [L F].
    split; [simpl; now rewrite L|].
    constructor; [|exact F]. simpl.
    split; apply or_text_nonempty; discriminate.
  - discriminate.
Qed.

(** X18.  The migration touches the table only through its one upsert.
    Without a session it fails with "User not logged in"; when
    [needsMigration()] is false it reports success with nothing migrated;
    and in every case the table is either left as it was, or it is the
    table an upsert of the mapped rows returned -- one row per stored
    complaint, each with a priority and a submitter name that are never
    empty -- and the result reports success with the number of returned
    rows. *)
Theorem migration_outcomes
        (JSON_parse : string -> string + Migration.Json)
        (TypeError : string)
        (upsert : Env -> Db.t -> list Migration.DbRow.t ->
                  Supabase.PgError + (list Row.t * Db.t))
        (env : Env) (storedComplaints : option string) (db : Db.t) :
  let result :=
    Migration.migrateLocalStorageToSupabase JSON_parse TypeError upsert env
                                            storedComplaints db in
  (session env = None ->
   result = (Migration.mkResult false None (Some "User not logged in"), db))
  /\ (session env <> None ->
      Migration.needsMigration storedComplaints = false ->
      result = (Migration.mkResult true (Some 0%nat) None, db))
  /\ (snd result = db
      \/ exists u text items rows data,
          session env = Some u
          /\ storedComplaints = Some text
          /\ JSON_parse text = inr (Migration.Array items)
          /\ Migration.dbComplaints u (clientNow env) items = Some rows
          /\ List.length rows = List.length items
          /\ rows <> []
          /\ Forall (fun row =>
                       Migration.DbRow.priority row <> EmptyString
                       /\ Migration.DbRow.user_name row <> EmptyString)
                    rows
          /\ upsert env db rows = inr (data, snd result)
          /\ fst result
             = Migration.mkResult true (Some (List.length data)) None).
Proof.
  intro result. subst result.
  unfold Migration.migrateLocalStorageToSupabase, Migration.needsMigration.
  destruct (session env) as [u|] eqn:Hs.
  - split; [discriminate|]. split.
    + intros _ Hn. destruct storedComplaints as [text|]; [|reflexivity].
      now rewrite Hn.
    + destruct storedComplaints as [text|]; [|now left].
      destruct (JS.truthy (Some text)); [|now left]. simpl.
      destruct (JSON_parse text) as [e|[|items]] eqn:Hparse;
        try (now left).
      destruct items as [|item items]; [now left|].
      destruct (Migration.dbComplaints u (clientNow env) (item :: items))
        as [rows|] eqn:Hrows; [|now left].
      destruct (upsert env db rows) as [e|[data db']] eqn:Hup; [now left|].
      right. destruct (dbComplaints_rows _ _ _ _ Hrows) as [L F].
      exists u, text, (item :: items), rows, data.
      repeat split; try assumption; try reflexivity.
      intros ->. discriminate L.
  - split; [reflexivity|]. split; [congruence | now left].
Qed.

Lemma migration_outcomes_witness :
  Migration.migrateLocalStorageToSupabase
    Fixture.no_array "TypeError" Fixture.unreachable Sample.alice_env None
    Sample.db3
  = (Migration.mkResult true (Some 0%nat) None, Sample.db3).
Proof.
  apply (proj1 (proj2 (migration_outcomes
                         Fixture.no_array "TypeError" Fixture.unreachable
                         Sample.alice_env None Sample.db3))).
  - discriminate.
  - reflexivity.
Defined.

(** ** A refetch that fails *)

(** X19.  When a signed-in caller's refetch does not reach the endpoint,
    the list is left exactly as it was -- whoever it was loaded for -- one
    error toast is raised and the loading flag is cleared.  Only a refetch
    that succeeds, or one without a session, scopes the list to the
    caller. *)
Theorem failed_fetch_keeps_list (env : Env) (db : Db.t) (st : State.t)
        (u : User.t) :
  session env = Some u ->
  online env = false ->
  ComplaintContext.fetchComplaints env db st
  = State.mk (State.complaints st) false
             (State.toasts st ++ [toast_error "Failed to load complaints"]).
Proof.
  intros Hs Hoff. unfold ComplaintContext.fetchComplaints.
  rewrite Hs. unfold Supabase.select_complaints. now rewrite Hoff.
Qed.

Lemma failed_fetch_keeps_list_witness :
  let loaded_for_admin :=
    ComplaintContext.fetchComplaints Sample.admin_env Sample.db3
                                     State.initial in
  map Complaint.userId
      (State.complaints
         (ComplaintContext.fetchComplaints Fixture.offline_env Sample.db3
                                           loaded_for_admin))
  = [None; Some "b0b"; Some "a11ce"].
Proof.
  cbv zeta.
  rewrite (failed_fetch_keeps_list Fixture.offline_env Sample.db3 _
             Sample.alice eq_refl eq_refl).
  reflexivity.
Defined.
